(** * legal_team.py: the Streamlit legal-team page, as a state-passing model

    The page is a script that Streamlit re-runs from top to bottom after
    every user interaction.  One run reads the widget values, reads and
    mutates [st.session_state], talks to external services (temporary
    files, the PDF reader, the embedder, the Chroma collection, the
    language model) and renders widgets.  The model below follows the
    script line by line in a state-and-exception monad; the external
    services are an interface ([Services]) whose answers, including the
    exceptions they raise, are not fixed. *)

From Stdlib Require Import ZArith.
From stdpp Require Import base option list gmap strings.

Local Open Scope string_scope.
Local Open Scope list_scope.

(** ** Values of the script *)

(** A Python exception, by its [str()]. *)
Definition exn := string.

Inductive result (A : Type) : Type :=
| Ok (a : A)
| Raise (e : exn).
Arguments Ok {A} a.
Arguments Raise {A} e.

(** The newline of the f-strings. *)
Definition nl : string := String (Ascii.ascii_of_nat 10) EmptyString.

(** [st.file_uploader] value: [uploaded_file.name], [uploaded_file.getvalue()]. *)
Record UploadedFile := {
  file_name : string;
  getvalue : list Byte.byte
}.

Inductive Embedder := GeminiEmbedder.

(** [ChromaDb(collection=..., path=..., persistent_client=..., embedder=...)]:
    the handle kept in the session; the stored chunks live in the store. *)
Record ChromaDb := {
  collection : string;
  path : string;
  persistent_client : bool;
  embedder : Embedder
}.

Record DocumentChunking := {
  chunk_size : Z;
  overlap : Z
}.

Inductive Reader := PDFReader.

(** [PDFKnowledgeBase(path=..., vector_db=..., reader=..., chunking_strategy=...)]. *)
Record PDFKnowledgeBase := {
  kb_path : string;
  kb_vector_db : ChromaDb;
  kb_reader : Reader;
  chunking_strategy : DocumentChunking
}.

Inductive Model := Gemini (id : string).

Inductive Tool := DuckDuckGoTools.

(** [Agent(...)] with the keyword arguments the script passes; an argument
    the script omits is [None]. *)
Record Agent := {
  agent_name : string;
  model : Model;
  knowledge : option PDFKnowledgeBase;
  search_knowledge : option bool;
  description : string;
  instructions : list string;
  tools : option (list Tool);
  show_tool_calls : bool;
  markdown : bool
}.

(** What [Agent.run] returns: [.content] and the text an f-string makes of
    the whole object. *)
Record RunResponse := {
  content : option string;
  rendered : string
}.

(** A chunk handed to the vector store. *)
Record Chunk := {
  chunk_id : string;
  chunk_text : string
}.

(** [st.session_state] once lines 29-38 have run. *)
Record Session := {
  vector_db : ChromaDb;
  knowledge_base : option PDFKnowledgeBase;
  processed_files : gset string
}.

(** Calls leaving the script, in the order they are started. *)
Inductive Call :=
| CallTempWrite (data : list Byte.byte)
| CallDrop (coll : string)
| CallCreate (coll : string)
| CallReadPdf (file : string) (chunking : DocumentChunking)
| CallEmbed (text : string)
| CallUpsert (coll : string) (ids : list string)
| CallRun (agent : string) (prompt : string).

(** Where a widget is drawn and what it is. *)
Inductive Place := Main | Sidebar | Tab (label : string).

Inductive Kind := StHeader | StSubheader | StSuccess | StError | StWarning | StMarkdown.

Record Widget := {
  place : Place;
  kind : Kind;
  text : string
}.

(** The option list of [st.selectbox]. *)
Inductive AnalysisType :=
| ContractReview
| LegalResearch
| RiskAssessment
| ComplianceCheck
| CustomQuery.

Definition label (t : AnalysisType) : string :=
  match t with
  | ContractReview => "Contract Review"
  | LegalResearch => "Legal Research"
  | RiskAssessment => "Risk Assessment"
  | ComplianceCheck => "Compliance Check"
  | CustomQuery => "Custom Query"
  end.

(** What one run of the script reads from outside: the outcome of
    [st.secrets.get("GOOGLE_API_KEY", None)] and the widget values.  The
    lookup returns the key, or [None] when the secrets hold no such key, or
    raises when the secrets cannot be read (there is no secrets file). *)
Record Inputs := {
  secret_api_key : result (option string);
  chunk_size_in : Z;
  overlap_in : Z;
  uploaded_file : option UploadedFile;
  analysis_type : AnalysisType;
  custom_text : string;
  analyze_clicked : bool
}.

(** The same widget values on another outcome of the secrets lookup. *)
Definition with_secret (lookup : result (option string)) (inp : Inputs) : Inputs := {|
  secret_api_key := lookup;
  chunk_size_in := chunk_size_in inp;
  overlap_in := overlap_in inp;
  uploaded_file := uploaded_file inp;
  analysis_type := analysis_type inp;
  custom_text := custom_text inp;
  analyze_clicked := analyze_clicked inp
|}.

(** Python truthiness of a [str] and of an optional [str]. *)
Definition truthy (s : string) : bool :=
  match s with
  | EmptyString => false
  | String _ _ => true
  end.

Definition truthy_opt (o : option string) : bool :=
  match o with
  | Some s => truthy s
  | None => false
  end.

(** [f"{x}"] of an optional [str]. *)
Definition fmt (o : option string) : string :=
  match o with
  | Some s => s
  | None => "None"
  end.

(** [x if x else fallback]. *)
Definition or_else (o : option string) (fallback : string) : string :=
  if truthy_opt o then fmt o else fallback.

(** ** The agents (lines 86-141)

    The four agents are built once the session has a knowledge base; the
    three workers are given it as [knowledge]. *)

Definition legal_researcher (kb : PDFKnowledgeBase) : Agent := {|
  agent_name := "LegalAdvisor";
  model := Gemini "gemini-2.0-flash-exp";
  knowledge := Some kb;
  search_knowledge := Some true;
  description := "Finds and cites relevant legal cases, regulations, and precedents.";
  instructions := [
    "Extract all available data from the knowledge base and search for legal cases, regulations, and citations.";
    "If needed, use DuckDuckGo for additional legal references.";
    "Always provide source references in your answers."
  ];
  tools := Some [DuckDuckGoTools];
  show_tool_calls := true;
  markdown := true
|}.

Definition contract_analyst (kb : PDFKnowledgeBase) : Agent := {|
  agent_name := "ContractAnalyst";
  model := Gemini "gemini-2.0-flash-exp";
  knowledge := Some kb;
  search_knowledge := Some true;
  description := "Identifies key clauses, risks, and obligations in contracts.";
  instructions := [
    "Extract all available data from the knowledge base and analyze the contract for key clauses, obligations, and potential ambiguities.";
    "Reference specific sections of the contract where possible."
  ];
  tools := None;
  show_tool_calls := true;
  markdown := true
|}.

Definition legal_strategist (kb : PDFKnowledgeBase) : Agent := {|
  agent_name := "LegalStrategist";
  model := Gemini "gemini-2.0-flash-exp";
  knowledge := Some kb;
  search_knowledge := Some true;
  description := "Provides strategic legal recommendations and risk assessment.";
  instructions := [
    "Using all data from the knowledge base, assess the contract for legal risks and opportunities.";
    "Provide actionable recommendations and ensure compliance with applicable laws."
  ];
  tools := None;
  show_tool_calls := true;
  markdown := true
|}.

Definition team_lead : Agent := {|
  agent_name := "teamlead";
  model := Gemini "gemini-2.0-flash-exp";
  knowledge := None;
  search_knowledge := None;
  description := "Integrates insights from all agents into a comprehensive report.";
  instructions := [
    "Combine and summarize all insights provided by the Legal Researcher, Contract Analyst, and Legal Strategist. " +:+
    "Ensure the final report includes references to all relevant sections from the document."
  ];
  tools := None;
  show_tool_calls := true;
  markdown := true
|}.

(** ** The canned queries (lines 170-183), a dict keyed by the option's label *)

Definition predefined_queries : list (string * string) := [
  ("Contract Review",
   "Analyze this contract using the knowledge base. Identify key terms, obligations, and risks.");
  ("Legal Research",
   "Find relevant legal cases and precedents using the knowledge base.");
  ("Risk Assessment",
   "Identify potential legal risks in the document and cite specific sections.");
  ("Compliance Check",
   "Evaluate this document for compliance with legal regulations and highlight any concerns.")
].

(** [d[key]] of a dict written as a literal. *)
Fixpoint dict_get (d : list (string * string)) (key : string) : option string :=
  match d with
  | [] => None
  | (k, v) :: d' => if String.eqb k key then Some v else dict_get d' key
  end.

(** ** Session start (lines 29-38) *)

Definition law_db : ChromaDb := {|
  collection := "law";
  path := "tmp/chromadb";
  persistent_client := true;
  embedder := GeminiEmbedder
|}.

Definition fresh_session : Session := {|
  vector_db := law_db;
  knowledge_base := None;
  processed_files := ∅
|}.

(** Lines 69-74: the knowledge base made for an upload. *)
Definition new_knowledge_base (inp : Inputs) (db : ChromaDb) (temp_path : string)
  : PDFKnowledgeBase := {|
  kb_path := temp_path;
  kb_vector_db := db;
  kb_reader := PDFReader;
  chunking_strategy := {| chunk_size := chunk_size_in inp; overlap := overlap_in inp |}
|}.

(** The prompts of the team lead (lines 148-154, 201, 206). *)
Definition integrate_prompt (research contract strategy : RunResponse) : string :=
  "Summarize and integrate the following insights:" +:+ nl +:+ nl +:+
  "Legal Researcher:" +:+ nl +:+ rendered research +:+ nl +:+ nl +:+
  "Contract Analyst:" +:+ nl +:+ rendered contract +:+ nl +:+ nl +:+
  "Legal Strategist:" +:+ nl +:+ rendered strategy +:+ nl +:+ nl +:+
  "Provide a structured legal analysis report that includes key terms, obligations, risks, and recommendations.".

Definition key_points_prompt (response : RunResponse) : string :=
  "Summarize the key legal points from this analysis:" +:+ nl +:+ fmt (content response).

Definition recommendations_prompt (response : RunResponse) : string :=
  "Provide legal recommendations based on this analysis:" +:+ nl +:+ fmt (content response).

(** ** The world around the script *)

(** The external services.  Each call may change the services' own state
    [Svc] and either returns or raises.  [Vec] is the type of embeddings.
    - [temp_write]: [tempfile.NamedTemporaryFile(delete=False, suffix=".pdf")]
      and [temp_file.write]; returns [temp_file.name];
    - [read_pdf]: [PDFReader] with the [DocumentChunking] strategy on a path;
    - [get_embedding]: the [GeminiEmbedder];
    - [store_fault]: whether an operation on the Chroma collection raises;
    - [agent_run]: [Agent.run(prompt)]. *)
Class Services (Svc Vec : Type) := {
  temp_write : list Byte.byte → Svc → Svc * result string;
  read_pdf : string → DocumentChunking → Svc → Svc * result (list Chunk);
  get_embedding : string → Svc → Svc * result Vec;
  store_fault : Call → Svc → Svc * result unit;
  agent_run : Agent → string → Svc → Svc * result RunResponse
}.

(** Everything a run of the script can read or change:
    - [session]: [st.session_state];
    - [environ]: [os.environ["GOOGLE_API_KEY"]];
    - [chroma]: the persistent store, from collection name to the stored
      chunks (id to text and embedding); a name that is not bound is a
      collection that does not exist;
    - [svc]: the state of the external services;
    - [calls]: the calls started so far, oldest first;
    - [page]: the widgets drawn so far in this run, first drawn first. *)
Record State (Svc Vec : Type) := {
  session : Session;
  environ : option string;
  chroma : gmap string (gmap string (string * Vec));
  svc : Svc;
  calls : list Call;
  page : list Widget
}.
Arguments session {Svc Vec} _.
Arguments environ {Svc Vec} _.
Arguments chroma {Svc Vec} _.
Arguments svc {Svc Vec} _.
Arguments calls {Svc Vec} _.
Arguments page {Svc Vec} _.

(** ** State and exceptions *)

(** A piece of the script: from the state before to the state after and
    either a value or the exception that left it.  The state changes made
    before an exception stay. *)
Definition M (S A : Type) : Type := S → S * result A.

Definition ret {S A} (a : A) : M S A := λ s, (s, Ok a).

Definition raise {S A} (e : exn) : M S A := λ s, (s, Raise e).

Definition bind {S A B} (m : M S A) (k : A → M S B) : M S B :=
  λ s, match m s with
       | (s', Ok a) => k a s'
       | (s', Raise e) => (s', Raise e)
       end.

(** [try: m  except Exception as e: handler e]. *)
Definition try_except {S A} (m : M S A) (handler : exn → M S A) : M S A :=
  λ s, match m s with
       | (s', Ok a) => (s', Ok a)
       | (s', Raise e) => handler e s'
       end.

Notation "'let*' x ':=' m 'in' k" := (bind m (λ x, k))
  (at level 10, x name, m at level 100, k at level 200).
Notation "m '>>>' k" := (bind m (λ _, k))
  (at level 90, right associativity).

Section Model.
Context {Svc Vec : Type} `{!Services Svc Vec}.

Local Abbreviation Run := (M (State Svc Vec)).

Definition get_session : Run Session := λ s, (s, Ok (session s)).

Definition set_session (x : Session) : Run unit :=
  λ s, ({| session := x; environ := environ s; chroma := chroma s;
           svc := svc s; calls := calls s; page := page s |}, Ok tt).

Definition set_environ (k : string) : Run unit :=
  λ s, ({| session := session s; environ := Some k; chroma := chroma s;
           svc := svc s; calls := calls s; page := page s |}, Ok tt).

Definition get_chroma : Run (gmap string (gmap string (string * Vec))) :=
  λ s, (s, Ok (chroma s)).

Definition set_chroma (c : gmap string (gmap string (string * Vec))) : Run unit :=
  λ s, ({| session := session s; environ := environ s; chroma := c;
           svc := svc s; calls := calls s; page := page s |}, Ok tt).

(** Draw a widget. *)
Definition draw (p : Place) (k : Kind) (t : string) : Run unit :=
  λ s, ({| session := session s; environ := environ s; chroma := chroma s;
           svc := svc s; calls := calls s;
           page := page s ++ [ {| place := p; kind := k; text := t |} ] |}, Ok tt).

(** Start the call [c] and wait for the service to return or raise. *)
Definition service {A} (c : Call) (f : Svc → Svc * result A) : Run A :=
  λ s, let '(v, r) := f (svc s) in
       ({| session := session s; environ := environ s; chroma := chroma s;
           svc := v; calls := calls s ++ [c]; page := page s |}, r).

(** *** The knowledge base's [load]

    [knowledge_base.load(recreate=..., upsert=True)] belongs to the agno
    library.  What it does with the collection of its [vector_db]: with
    [recreate] the collection is dropped; a collection that does not exist
    is created empty; the PDF at the knowledge base's path is read and
    chunked; the chunks are upserted one after the other, each one embedded
    and then stored under its id (agno 1.7); a read that gives no chunk
    stores nothing. *)

Definition chroma_drop (db : ChromaDb) : Run unit :=
  let c := CallDrop (collection db) in
  service c (store_fault c) >>>
  let* m := get_chroma in
  set_chroma (delete (collection db) m).

Definition chroma_create (db : ChromaDb) : Run unit :=
  let c := CallCreate (collection db) in
  service c (store_fault c) >>>
  let* m := get_chroma in
  set_chroma (<[collection db := ∅]> m).

(** [vector_db.upsert(documents=[doc])] *)
Definition chroma_upsert (db : ChromaDb) (c : Chunk) : Run unit :=
  let* v := service (CallEmbed (chunk_text c)) (get_embedding (chunk_text c)) in
  let call := CallUpsert (collection db) [chunk_id c] in
  service call (store_fault call) >>>
  let* m := get_chroma in
  set_chroma (<[collection db :=
                  <[chunk_id c := (chunk_text c, v)]> (default ∅ (m !! collection db))]> m).

Fixpoint upsert_each (db : ChromaDb) (cs : list Chunk) : Run unit :=
  match cs with
  | [] => ret tt
  | c :: cs' => chroma_upsert db c >>> upsert_each db cs'
  end.

(** The collection [coll] once the chunks of [es], each with its embedding,
    have been upserted in turn. *)
Definition upsert_chunks (es : list (Chunk * Vec)) (coll : gmap string (string * Vec))
  : gmap string (string * Vec) :=
  foldl (λ acc e, <[chunk_id e.1 := (chunk_text e.1, e.2)]> acc) coll es.

Definition load_upsert (recreate : bool) (kb : PDFKnowledgeBase) : Run unit :=
  let db := kb_vector_db kb in
  (if recreate then chroma_drop db else ret tt) >>>
  (let* m := get_chroma in
   match m !! collection db with
   | None => chroma_create db
   | Some _ => ret tt
   end) >>>
  let* cs := service (CallReadPdf (kb_path kb) (chunking_strategy kb))
                     (read_pdf (kb_path kb) (chunking_strategy kb)) in
  upsert_each db cs.

(** *** The sidebar (lines 42-82) *)

(** Line 46.  The lookup is outside every [try]: what it raises leaves the
    script. *)
Definition secrets_get (lookup : result (option string)) : Run (option string) :=
  match lookup with
  | Ok api_key => ret api_key
  | Raise e => raise e
  end.

(** Lines 48-52: a key that is there and not empty is exported; a missing
    or empty key is reported, and nothing else depends on it. *)
Definition load_api_key (api_key : option string) : Run unit :=
  match api_key with
  | Some k =>
      if truthy k
      then set_environ k >>> draw Sidebar StSuccess "API key loaded from secrets!"
      else draw Sidebar StError "Missing Google API Key in Streamlit secrets!"
  | None => draw Sidebar StError "Missing Google API Key in Streamlit secrets!"
  end.

(** Lines 65-79, the body of the [try].  The constructors
    ([PDFKnowledgeBase], [PDFReader], [DocumentChunking]) only record their
    arguments; what can raise is the temporary file and the [load].  The
    spinner is not drawn. *)
Definition ingest (inp : Inputs) (f : UploadedFile) : Run unit :=
  let* temp_path := service (CallTempWrite (getvalue f)) (temp_write (getvalue f)) in
  let* ss := get_session in
  let kb := new_knowledge_base inp (vector_db ss) temp_path in
  set_session {| vector_db := vector_db ss;
                 knowledge_base := Some kb;
                 processed_files := processed_files ss |} >>>
  load_upsert true kb >>>
  let* ss := get_session in
  set_session {| vector_db := vector_db ss;
                 knowledge_base := knowledge_base ss;
                 processed_files := processed_files ss ∪ {[ file_name f ]} |} >>>
  draw Sidebar StSuccess "✅ Document processed and stored in knowledge base!".

(** Lines 61-82. *)
Definition upload (inp : Inputs) : Run unit :=
  match uploaded_file inp with
  | Some f =>
      let* ss := get_session in
      if decide (file_name f ∈ processed_files ss)
      then ret tt
      else try_except (ingest inp f)
             (λ e, draw Sidebar StError ("Error processing document: " +:+ e))
  | None => ret tt
  end.

Definition sidebar (inp : Inputs) : Run unit :=
  draw Sidebar StHeader "Configuration" >>>
  let* api_key := secrets_get (secret_api_key inp) in
  load_api_key api_key >>>
  draw Sidebar StHeader "📄 Document Upload" >>>
  upload inp.

(** *** The team (lines 143-155) *)

Definition run (a : Agent) (prompt : string) : Run RunResponse :=
  service (CallRun (agent_name a) prompt) (agent_run a prompt).

Definition get_team_response (kb : PDFKnowledgeBase) (query : string) : Run RunResponse :=
  let* research_response := run (legal_researcher kb) query in
  let* contract_response := run (contract_analyst kb) query in
  let* strategy_response := run (legal_strategist kb) query in
  let* final_response :=
    run team_lead (integrate_prompt research_response contract_response strategy_response) in
  ret final_response.

(** *** The analysis panel (lines 159-207) *)

(** Lines 166-184. *)
Definition select_query (inp : Inputs) : Run string :=
  match analysis_type inp with
  | CustomQuery => ret (custom_text inp)
  | t =>
      match dict_get predefined_queries (label t) with
      | Some q => ret q
      | None => raise ("KeyError: " +:+ label t)
      end
  end.

(** Lines 190-207, the [else] branch of the button. *)
Definition analyze (kb : PDFKnowledgeBase) (query : string) : Run unit :=
  let* response := get_team_response kb query in
  draw (Tab "Analysis") StSubheader "📑 Detailed Analysis" >>>
  draw (Tab "Analysis") StMarkdown (or_else (content response) "No response generated.") >>>
  draw (Tab "Key Points") StSubheader "📌 Key Points Summary" >>>
  let* summary := run team_lead (key_points_prompt response) in
  draw (Tab "Key Points") StMarkdown (or_else (content summary) "No summary generated.") >>>
  draw (Tab "Recommendations") StSubheader "📋 Recommendations" >>>
  let* recommendations := run team_lead (recommendations_prompt response) in
  draw (Tab "Recommendations") StMarkdown
       (or_else (content recommendations) "No recommendations generated.").

(** Lines 186-207. *)
Definition analyze_button (kb : PDFKnowledgeBase) (query : string) : Run unit :=
  if negb (truthy query)
  then draw Main StWarning "Please enter a query."
  else analyze kb query.

Definition analysis_panel (inp : Inputs) : Run unit :=
  let* ss := get_session in
  match knowledge_base ss with
  | Some kb =>
      draw Main StHeader "🔍 Select Analysis Type" >>>
      let* query := select_query inp in
      if analyze_clicked inp then analyze_button kb query else ret tt
  | None => ret tt
  end.

(** *** One run of the script, and a session of runs *)

(** Lines 42-207.  The page title and the introduction of lines 15-25 are
    the same on every run and are left out of [page]. *)
Definition script (inp : Inputs) : Run unit :=
  sidebar inp >>> analysis_panel inp.

(** The page is drawn anew on every run. *)
Definition clear_page (s : State Svc Vec) : State Svc Vec :=
  {| session := session s; environ := environ s; chroma := chroma s;
     svc := svc s; calls := calls s; page := [] |}.

(** The state a run leaves, whether it ended or was left by an exception. *)
Definition rerun (s : State Svc Vec) (inp : Inputs) : State Svc Vec :=
  (script inp (clear_page s)).1.

Definition reruns (s : State Svc Vec) (inps : list Inputs) : State Svc Vec :=
  foldl rerun s inps.

(** The state in which a browser session starts: the store and the
    services are whatever they are, the session state is fresh. *)
Definition session_start (env : option string)
    (store : gmap string (gmap string (string * Vec))) (v : Svc) : State Svc Vec :=
  {| session := fresh_session; environ := env; chroma := store;
     svc := v; calls := []; page := [] |}.

(** *** The agents' answers, as hypotheses of the statements *)

(** Every [Agent.run] returns. *)
Definition agents_respond : Prop :=
  ∀ a prompt v, ∃ v' r, agent_run a prompt v = (v', Ok r).

(** The six calls of one Analyze action return [r1] ... [r6], each call made
    in the state of the services that the call before it left: the three
    workers on the query, the team lead on their three answers, the team
    lead twice more on its own report [r4]. *)
Definition answers_in_turn (kb : PDFKnowledgeBase) (query : string) (v0 : Svc)
    (r1 r2 r3 r4 r5 r6 : RunResponse) (v6 : Svc) : Prop :=
  ∃ v1 v2 v3 v4 v5,
    agent_run (legal_researcher kb) query v0 = (v1, Ok r1) ∧
    agent_run (contract_analyst kb) query v1 = (v2, Ok r2) ∧
    agent_run (legal_strategist kb) query v2 = (v3, Ok r3) ∧
    agent_run team_lead (integrate_prompt r1 r2 r3) v3 = (v4, Ok r4) ∧
    agent_run team_lead (key_points_prompt r4) v4 = (v5, Ok r5) ∧
    agent_run team_lead (recommendations_prompt r4) v5 = (v6, Ok r6).

End Model.

(** A piece of the script that leaves the component [f] of the state as
    it found it, whether it returns or raises. *)
Definition preserves {S X A} (f : S → X) (m : M S A) : Prop :=
  ∀ s, f (m s).1 = f s.

(** A piece of the script whose state after is always related by [R] to
    its state before, whether it returns or raises. *)
Definition stable {S A} (R : relation S) (m : M S A) : Prop :=
  ∀ s, R s (m s).1.

(** The session keeps its store handle and forgets no processed file. *)
Definition session_grows {Svc Vec} (s s' : State Svc Vec) : Prop :=
  vector_db (session s') = vector_db (session s) ∧
  processed_files (session s) ⊆ processed_files (session s').

(** The trace is extended, never rewritten. *)
Definition calls_extended {Svc Vec} (s s' : State Svc Vec) : Prop :=
  calls s `prefix_of` calls s'.

(** A piece of the script that starts the call [c] before anything else
    it calls. *)
Definition starts_with {Svc Vec A} (c : Call) (m : M (State Svc Vec) A) : Prop :=
  ∀ s, ∃ rest, calls (m s).1 = calls s ++ c :: rest.

(** The page is drawn onto, never erased. *)
Definition page_extended {Svc Vec} (s s' : State Svc Vec) : Prop :=
  page s `prefix_of` page s'.

(** A session that has a knowledge base keeps having one. *)
Definition stays_loaded {Svc Vec} (s s' : State Svc Vec) : Prop :=
  is_Some (knowledge_base (session s)) → is_Some (knowledge_base (session s')).

(** The calls of the ingestion: everything but [Agent.run]. *)
Definition is_ingestion_call (c : Call) : bool :=
  match c with
  | CallRun _ _ => false
  | _ => true
  end.

(** The calls that store a chunk: its embedding and its upsert. *)
Definition is_embed_or_upsert (c : Call) : bool :=
  match c with
  | CallEmbed _ | CallUpsert _ _ => true
  | _ => false
  end.

(** The trace is extended by [Agent.run] calls only. *)
Definition runs_only {Svc Vec} (s s' : State Svc Vec) : Prop :=
  ∃ new, calls s' = calls s ++ new ∧ Forall (λ c, is_ingestion_call c = false) new.

(** The trace is extended by calls of the ingestion only. *)
Definition ingestion_only {Svc Vec} (s s' : State Svc Vec) : Prop :=
  ∃ new, calls s' = calls s ++ new ∧ Forall (λ c, is_ingestion_call c = true) new.

(** Every exception that leaves the piece of script [m] satisfies [P]. *)
Definition throws {S A} (P : exn → Prop) (m : M S A) : Prop :=
  ∀ s s' e, m s = (s', Raise e) → P e.

(** The exception [e] is one that some [Agent.run] raised. *)
Definition agent_raised {Svc Vec} `{!Services Svc Vec} (e : exn) : Prop :=
  ∃ a prompt v v', agent_run a prompt v = (v', Raise e).

(** ** What the specification says of an agent *)

(** The agent may look chunks up in the knowledge base. *)
Definition may_consult_knowledge (a : Agent) : Prop :=
  is_Some (knowledge a) ∧ search_knowledge a = Some true.

(** The agent may search the web. *)
Definition may_search_web (a : Agent) : Prop :=
  DuckDuckGoTools ∈ default [] (tools a).

(** Two agents that differ at most in [instructions] and [description]. *)
Definition same_but_instructions_description (a b : Agent) : Prop :=
  agent_name a = agent_name b ∧ model a = model b ∧ knowledge a = knowledge b ∧
  search_knowledge a = search_knowledge b ∧ tools a = tools b ∧
  show_tool_calls a = show_tool_calls b ∧ markdown a = markdown b.

(** Python's [str.isspace] on the ASCII range. *)
Definition is_space (c : Ascii.ascii) : bool :=
  let n := Ascii.nat_of_ascii c in
  ((9 <=? n) && (n <=? 13) || (28 <=? n) && (n <=? 32))%nat.

Fixpoint whitespace_only (q : string) : bool :=
  match q with
  | EmptyString => true
  | String c q' => is_space c && whitespace_only q'
  end.

(** ** Sample services and inputs

    Concrete services on which the statements below are run.  The state of
    the services is the number of calls they have answered. *)
Module Sample.

Definition answer (a : Agent) (prompt : string) (n : nat) : RunResponse :=
  {| content := Some ("Report of " +:+ agent_name a);
     rendered := "RunResponse(content='Report of " +:+ agent_name a +:+ "')" |}.

(** All services answer. *)
Definition healthy : Services nat unit := {|
  temp_write := λ _ n, (S n, Ok "/tmp/tmpa1b2c3.pdf");
  read_pdf := λ _ _ n,
    (S n, Ok [ {| chunk_id := "b1"; chunk_text := "This agreement expires in 12 months" |} ]);
  get_embedding := λ _ n, (S n, Ok tt);
  store_fault := λ _ n, (S n, Ok tt);
  agent_run := λ a p n, (S n, Ok (answer a p n))
|}.

(** The PDF cannot be read. *)
Definition unreadable : Services nat unit := {|
  temp_write := λ _ n, (S n, Ok "/tmp/tmpa1b2c3.pdf");
  read_pdf := λ _ _ n, (S n, Raise "EOF marker not found");
  get_embedding := λ _ n, (S n, Ok tt);
  store_fault := λ _ n, (S n, Ok tt);
  agent_run := λ a p n, (S n, Ok (answer a p n))
|}.

(** No API key reaches the embedder or the model. *)
Definition keyless : Services nat unit := {|
  temp_write := λ _ n, (S n, Ok "/tmp/tmpa1b2c3.pdf");
  read_pdf := λ _ _ n,
    (S n, Ok [ {| chunk_id := "b1"; chunk_text := "This agreement expires in 12 months" |} ]);
  get_embedding := λ _ n, (S n, Raise "GOOGLE_API_KEY not set");
  store_fault := λ _ n, (S n, Ok tt);
  agent_run := λ a p n, (S n, Raise "GOOGLE_API_KEY not set")
|}.

(** The model answers four calls and refuses the calls after them. *)
Definition out_of_quota : Services nat unit := {|
  temp_write := λ _ n, (n, Ok "/tmp/tmpa1b2c3.pdf");
  read_pdf := λ _ _ n,
    (n, Ok [ {| chunk_id := "b1"; chunk_text := "This agreement expires in 12 months" |} ]);
  get_embedding := λ _ n, (n, Ok tt);
  store_fault := λ _ n, (n, Ok tt);
  agent_run := λ a p n,
    (S n, if (n <? 4)%nat then Ok (answer a p n) else Raise "429 quota exceeded")
|}.

(** "%PDF" *)
Definition pdf_bytes : list Byte.byte := [Byte.x25; Byte.x50; Byte.x44; Byte.x46].

Definition lease : UploadedFile := {| file_name := "lease.pdf"; getvalue := pdf_bytes |}.

(** A store in which an earlier document left a chunk in the collection. *)
Definition old_store : gmap string (gmap string (string * unit)) :=
  {[ "law" := {[ "a1" := ("Clause 1 of an earlier contract", tt) ]} ]}.

Definition kb : PDFKnowledgeBase := {|
  kb_path := "/tmp/tmpa1b2c3.pdf";
  kb_vector_db := law_db;
  kb_reader := PDFReader;
  chunking_strategy := {| chunk_size := 1000; overlap := 200 |}
|}.

(** The widget values: a run that uploads the file, and a run that then
    presses Analyze on a canned or a custom query. *)
Definition upload_run (key : option string) : Inputs := {|
  secret_api_key := Ok key;
  chunk_size_in := 1000;
  overlap_in := 200;
  uploaded_file := Some lease;
  analysis_type := ContractReview;
  custom_text := "";
  analyze_clicked := false
|}.

Definition analyze_run (key : option string) (t : AnalysisType) (q : string) : Inputs := {|
  secret_api_key := Ok key;
  chunk_size_in := 1000;
  overlap_in := 200;
  uploaded_file := Some lease;
  analysis_type := t;
  custom_text := q;
  analyze_clicked := true
|}.

(** The same name on other bytes. *)
Definition lease_v2 : UploadedFile :=
  {| file_name := "lease.pdf"; getvalue := pdf_bytes ++ [Byte.x2d; Byte.x32] |}.

Definition reupload_run : Inputs := {|
  secret_api_key := Ok (Some "key");
  chunk_size_in := 500;
  overlap_in := 50;
  uploaded_file := Some lease_v2;
  analysis_type := ContractReview;
  custom_text := "";
  analyze_clicked := false
|}.

(** Widget values before any upload; the button is not on the page yet,
    the value given for it here is arbitrary. *)
Definition first_visit : Inputs := {|
  secret_api_key := Ok (Some "key");
  chunk_size_in := 1000;
  overlap_in := 200;
  uploaded_file := None;
  analysis_type := CustomQuery;
  custom_text := "What is the notice period?";
  analyze_clicked := true
|}.

(** A session that starts on a store with an earlier document in it. *)
Definition start : State nat unit := session_start None old_store 0%nat.

(** A state with the knowledge base loaded and the file recorded. *)
Definition loaded : State nat unit := {|
  session := {| vector_db := law_db; knowledge_base := Some kb;
                processed_files := {[ "lease.pdf" ]} |};
  environ := Some "key";
  chroma := {[ "law" := {[ "b1" := ("This agreement expires in 12 months", tt) ]} ]};
  svc := 0%nat;
  calls := [];
  page := []
|}.

End Sample.

(** * Properties *)

(** ** Frame lemmas of the monad *)

Lemma preserves_ret {S X A} (f : S → X) (a : A) : preserves f (ret a).
Proof. by intros s. Qed.

Lemma preserves_raise {S X A} (f : S → X) (e : exn) : preserves f (@raise S A e).
Proof. by intros s. Qed.

Lemma preserves_bind {S X A B} (f : S → X) (m : M S A) (k : A → M S B) :
  preserves f m → (∀ a, preserves f (k a)) → preserves f (bind m k).
Proof.
  intros Hm Hk s. unfold bind. specialize (Hm s).
  destruct (m s) as [s' [a|e]]; simpl in *; [|done].
  by rewrite Hk.
Qed.

Lemma preserves_try_except {S X A} (f : S → X) (m : M S A) (h : exn → M S A) :
  preserves f m → (∀ e, preserves f (h e)) → preserves f (try_except m h).
Proof.
  intros Hm Hh s. unfold try_except. specialize (Hm s).
  destruct (m s) as [s' [a|e]]; simpl in *; [done|].
  by rewrite Hh.
Qed.

Lemma stable_ret {S A} (R : relation S) `{!Reflexive R} (a : A) : stable R (ret a).
Proof. intros s. simpl. reflexivity. Qed.

Lemma stable_raise {S A} (R : relation S) `{!Reflexive R} (e : exn) :
  stable R (@raise S A e).
Proof. intros s. simpl. reflexivity. Qed.

Lemma stable_bind {S A B} (R : relation S) `{!Transitive R} (m : M S A) (k : A → M S B) :
  stable R m → (∀ a, stable R (k a)) → stable R (bind m k).
Proof.
  intros Hm Hk s. unfold bind. specialize (Hm s).
  destruct (m s) as [s' [a|e]]; simpl in *; [|done].
  etrans; [exact Hm|apply Hk].
Qed.

Lemma stable_try_except {S A} (R : relation S) `{!Transitive R}
    (m : M S A) (h : exn → M S A) :
  stable R m → (∀ e, stable R (h e)) → stable R (try_except m h).
Proof.
  intros Hm Hh s. unfold try_except. specialize (Hm s).
  destruct (m s) as [s' [a|e]]; simpl in *; [done|].
  etrans; [exact Hm|apply Hh].
Qed.

Lemma preserves_stable {S X A} (f : S → X) (R : relation S) (m : M S A) :
  (∀ s s', f s' = f s → R s s') → preserves f m → stable R m.
Proof. intros HR Hm s. apply HR, Hm. Qed.

#[export] Instance session_grows_preorder {Svc Vec} : PreOrder (@session_grows Svc Vec).
Proof.
  split.
  - by intros s.
  - intros s1 s2 s3 [H1 H2] [H3 H4]. split; [congruence|set_solver].
Qed.

#[export] Instance runs_only_preorder {Svc Vec} : PreOrder (@runs_only Svc Vec).
Proof.
  split.
  - intros s. exists []. by rewrite app_nil_r.
  - intros s1 s2 s3 (n1 & H1 & F1) (n2 & H2 & F2). exists (n1 ++ n2). split.
    + by rewrite H2, H1, app_assoc.
    + by apply Forall_app.
Qed.

#[export] Instance page_extended_preorder {Svc Vec} : PreOrder (@page_extended Svc Vec).
Proof.
  split.
  - intros s. unfold page_extended. reflexivity.
  - intros s1 s2 s3 H1 H2. unfold page_extended in *. by etrans.
Qed.

#[export] Instance stays_loaded_preorder {Svc Vec} : PreOrder (@stays_loaded Svc Vec).
Proof.
  split.
  - intros s H. exact H.
  - intros s1 s2 s3 H1 H2 H. by apply H2, H1.
Qed.

#[export] Instance calls_extended_preorder {Svc Vec} : PreOrder (@calls_extended Svc Vec).
Proof.
  split.
  - intros s. unfold calls_extended. reflexivity.
  - intros s1 s2 s3 H1 H2. unfold calls_extended in *. by etrans.
Qed.

Create HintDb frame discriminated.
#[export] Hint Extern 1 (stable _ (ret _)) => apply stable_ret; apply _ : frame.
#[export] Hint Extern 1 (stable _ (raise _)) => apply stable_raise; apply _ : frame.
#[export] Hint Extern 2 (stable _ (bind _ _)) =>
  apply stable_bind; [apply _| |intros ?] : frame.
#[export] Hint Extern 2 (stable _ (try_except _ _)) =>
  apply stable_try_except; [apply _| |intros ?] : frame.
#[export] Hint Extern 5 (stable _ (match ?x with _ => _ end)) => destruct x : frame.
#[export] Hint Resolve preserves_ret preserves_raise : frame.
#[export] Hint Extern 2 (preserves _ (bind _ _)) =>
  apply preserves_bind; [|intros ?] : frame.
#[export] Hint Extern 2 (preserves _ (try_except _ _)) =>
  apply preserves_try_except; [|intros ?] : frame.
#[export] Hint Extern 5 (preserves _ (match ?x with _ => _ end)) => destruct x : frame.

Section Properties.
Context {Svc Vec : Type} `{!Services Svc Vec}.

Local Abbreviation Run := (M (State Svc Vec)).

(** *** What the primitives leave alone *)

Lemma get_session_preserves {X} (f : State Svc Vec → X) : preserves f get_session.
Proof. by intros s. Qed.

Lemma get_chroma_preserves {X} (f : State Svc Vec → X) : preserves f get_chroma.
Proof. by intros s. Qed.

Lemma secrets_get_preserves {X} (f : State Svc Vec → X) lookup :
  preserves f (secrets_get lookup).
Proof. intros s. by destruct lookup. Qed.

Lemma service_session {A} c (g : Svc → Svc * result A) : preserves session (service c g : Run A).
Proof. intros s. unfold service. by destruct (g (svc s)). Qed.

Lemma service_chroma {A} c (g : Svc → Svc * result A) : preserves chroma (service c g : Run A).
Proof. intros s. unfold service. by destruct (g (svc s)). Qed.

Lemma service_page {A} c (g : Svc → Svc * result A) : preserves page (service c g : Run A).
Proof. intros s. unfold service. by destruct (g (svc s)). Qed.

Lemma service_environ {A} c (g : Svc → Svc * result A) : preserves environ (service c g : Run A).
Proof. intros s. unfold service. by destruct (g (svc s)). Qed.

Lemma draw_session p k t : preserves (session (Svc:=Svc) (Vec:=Vec)) (draw p k t).
Proof. by intros s. Qed.

Lemma draw_chroma p k t : preserves (chroma (Svc:=Svc) (Vec:=Vec)) (draw p k t).
Proof. by intros s. Qed.

Lemma draw_calls p k t : preserves (calls (Svc:=Svc) (Vec:=Vec)) (draw p k t).
Proof. by intros s. Qed.

Lemma draw_svc p k t : preserves (svc (Svc:=Svc) (Vec:=Vec)) (draw p k t).
Proof. by intros s. Qed.

Lemma set_chroma_session c : preserves (session (Svc:=Svc) (Vec:=Vec)) (set_chroma c).
Proof. by intros s. Qed.

Lemma set_chroma_page c : preserves (page (Svc:=Svc) (Vec:=Vec)) (set_chroma c).
Proof. by intros s. Qed.

Lemma set_environ_session k : preserves (session (Svc:=Svc) (Vec:=Vec)) (set_environ k).
Proof. by intros s. Qed.

Lemma set_environ_chroma k : preserves (chroma (Svc:=Svc) (Vec:=Vec)) (set_environ k).
Proof. by intros s. Qed.

Lemma set_environ_calls k : preserves (calls (Svc:=Svc) (Vec:=Vec)) (set_environ k).
Proof. by intros s. Qed.

Lemma set_environ_svc k : preserves (svc (Svc:=Svc) (Vec:=Vec)) (set_environ k).
Proof. by intros s. Qed.

Lemma set_session_chroma x : preserves (chroma (Svc:=Svc) (Vec:=Vec)) (set_session x).
Proof. by intros s. Qed.

Lemma set_session_page x : preserves (page (Svc:=Svc) (Vec:=Vec)) (set_session x).
Proof. by intros s. Qed.

Hint Resolve get_session_preserves get_chroma_preserves secrets_get_preserves
  service_session
  service_chroma service_page service_environ draw_session draw_chroma
  draw_calls draw_svc set_chroma_session set_chroma_page set_environ_session
  set_environ_chroma set_environ_calls set_environ_svc set_session_chroma
  set_session_page : frame.

Lemma upsert_each_session db cs : preserves session (upsert_each db cs : Run _).
Proof. induction cs; simpl; unfold chroma_upsert; auto 20 with frame. Qed.

Lemma upsert_each_page db cs : preserves page (upsert_each db cs : Run _).
Proof. induction cs; simpl; unfold chroma_upsert; auto 20 with frame. Qed.

Hint Resolve upsert_each_session upsert_each_page : frame.

(** [load] touches the store and the services, never the session or the page. *)
Lemma load_upsert_session r kb : preserves session (load_upsert r kb : Run _).
Proof. unfold load_upsert, chroma_drop, chroma_create. auto 20 with frame. Qed.

Lemma load_upsert_page r kb : preserves page (load_upsert r kb : Run _).
Proof. unfold load_upsert, chroma_drop, chroma_create. auto 20 with frame. Qed.

(** *** The collection after [load] *)

Lemma upsert_chunks_lookup (es : list (Chunk * Vec)) coll i :
  is_Some (upsert_chunks es coll !! i) ↔
  i ∈ chunk_id <$> es.*1 ∨ is_Some (coll !! i).
Proof.
  unfold upsert_chunks. revert coll.
  induction es as [|[c v] es IH]; intros coll; simpl.
  - rewrite elem_of_nil. tauto.
  - rewrite IH, elem_of_cons, lookup_insert_is_Some'.
    split; intros H; destruct_or!; subst; auto.
Qed.

Lemma upsert_chunks_lookup_text (es : list (Chunk * Vec)) coll i t v :
  upsert_chunks es coll !! i = Some (t, v) →
  (∃ c, c ∈ es.*1 ∧ chunk_id c = i ∧ chunk_text c = t) ∨ coll !! i = Some (t, v).
Proof.
  unfold upsert_chunks. revert coll.
  induction es as [|[c w] es IH]; intros coll; simpl; [by right|].
  intros [(c' & Hin & Hid & Ht)|Hl]%IH.
  - left. exists c'. split; [by apply list_elem_of_further|done].
  - destruct (decide (chunk_id c = i)) as [Heq|Hne].
    + rewrite Heq, lookup_insert_eq in Hl. injection Hl as <- <-.
      left. exists c. split; [apply list_elem_of_here|done].
    + rewrite lookup_insert_ne in Hl by done. by right.
Qed.

(** The loop over the chunks, when every embedding and every upsert
    returns. *)
Lemma upsert_each_returns db cs (s s' : State Svc Vec) c0 :
  chroma s !! collection db = Some c0 →
  upsert_each db cs s = (s', Ok tt) →
  ∃ es : list (Chunk * Vec),
    es.*1 = cs ∧
    chroma s' = <[collection db := upsert_chunks es c0]> (chroma s) ∧
    ∃ rest, calls s' = calls s ++ rest ∧
            Forall (λ c, is_embed_or_upsert c = true) rest.
Proof.
  revert s c0. induction cs as [|c cs IH]; intros s c0 Hc0; simpl.
  - intros [= <-]. exists [].
    split_and!; [done| |exists []; by rewrite app_nil_r].
    unfold upsert_chunks. simpl. by rewrite insert_id.
  - unfold bind at 1, chroma_upsert. unfold bind at 1, service at 1.
    destruct (get_embedding (chunk_text c) (svc s)) as [v1 [x|e]]; [|done].
    unfold bind at 1, service at 1. simpl.
    destruct (store_fault _ v1) as [v2 [[]|e]]; [|done].
    unfold bind at 1, get_chroma at 1, set_chroma at 1. simpl. rewrite Hc0. simpl.
    intros E. eapply IH in E as (es & Hes & Hchroma & rest & Hcalls & Hall);
      [|simpl; apply lookup_insert_eq].
    simpl in Hchroma, Hcalls. exists ((c, x) :: es). split_and!.
    + simpl. by rewrite <- Hes.
    + rewrite Hchroma. by rewrite insert_insert_eq.
    + exists (CallEmbed (chunk_text c) :: CallUpsert (collection db) [chunk_id c] :: rest).
      split; [rewrite Hcalls; by rewrite <- !app_assoc|].
      by repeat apply Forall_cons_2.
Qed.

(** With [recreate=True] a [load] that returns has dropped and created the
    collection, read the PDF, and left in the collection the chunks it
    read, and nothing else. *)
Lemma load_recreate_returns kb (s s' : State Svc Vec) :
  load_upsert true kb s = (s', Ok tt) →
  ∃ v1 v2 v3 cs (es : list (Chunk * Vec)),
    store_fault (CallDrop (collection (kb_vector_db kb))) (svc s) = (v1, Ok tt) ∧
    store_fault (CallCreate (collection (kb_vector_db kb))) v1 = (v2, Ok tt) ∧
    read_pdf (kb_path kb) (chunking_strategy kb) v2 = (v3, Ok cs) ∧
    es.*1 = cs ∧
    chroma s' = <[collection (kb_vector_db kb) := upsert_chunks es ∅]> (chroma s) ∧
    ∃ rest, calls s' = calls s ++
      [ CallDrop (collection (kb_vector_db kb));
        CallCreate (collection (kb_vector_db kb));
        CallReadPdf (kb_path kb) (chunking_strategy kb) ] ++ rest ∧
      Forall (λ c, is_embed_or_upsert c = true) rest.
Proof.
  unfold load_upsert, chroma_drop, chroma_create.
  set (db := kb_vector_db kb).
  unfold bind at 1. unfold bind at 1. unfold service at 1.
  destruct (store_fault (CallDrop (collection db)) (svc s)) as [v1 [[]|e]] eqn:Hd;
    [|done].
  unfold bind at 1, get_chroma at 1, set_chroma at 1. simpl.
  unfold bind at 1. unfold bind at 1. unfold get_chroma at 1. simpl.
  rewrite lookup_delete_eq.
  unfold bind at 1. unfold service at 1. simpl.
  destruct (store_fault (CallCreate (collection db)) v1) as [v2 [[]|e]] eqn:Hc;
    [|done].
  unfold bind at 1, get_chroma at 1, set_chroma at 1. simpl.
  unfold bind at 1. unfold service at 1. simpl.
  destruct (read_pdf (kb_path kb) (chunking_strategy kb) v2) as [v3 [cs|e]] eqn:Hr;
    [|done].
  intros E.
  eapply upsert_each_returns in E as (es & Hes & Hchroma & rest & Hcalls & Hall);
    [|simpl; apply lookup_insert_eq].
  simpl in Hchroma, Hcalls.
  exists v1, v2, v3, cs, es. split_and!; try done.
  - by rewrite Hchroma, insert_insert_eq, insert_delete_eq.
  - exists rest. split; [|done]. rewrite Hcalls. by rewrite <- !app_assoc.
Qed.

(** *** The two ways out of the ingestion *)

Lemma ingest_raises inp f (s s1 : State Svc Vec) e :
  ingest inp f s = (s1, Raise e) →
  processed_files (session s1) = processed_files (session s) ∧
  vector_db (session s1) = vector_db (session s) ∧
  page s1 = page s ∧
  match (temp_write (getvalue f) (svc s)).2 with
  | Raise e' => e' = e ∧ session s1 = session s ∧ chroma s1 = chroma s
  | Ok temp_path =>
      knowledge_base (session s1) =
        Some (new_knowledge_base inp (vector_db (session s)) temp_path)
  end.
Proof.
  unfold ingest. unfold bind at 1, service.
  destruct (temp_write (getvalue f) (svc s)) as [v [p|e']]; simpl.
  - unfold bind at 1, get_session at 1. simpl.
    unfold bind at 1, set_session at 1. simpl.
    unfold bind at 1.
    match goal with |- context [load_upsert true ?kb ?s0] =>
      pose proof (load_upsert_session true kb s0) as Hs;
      pose proof (load_upsert_page true kb s0) as Hp;
      destruct (load_upsert true kb s0) as [s2 [[]|e2]]
    end; simpl in *; [done|].
    intros [= <- <-]. by rewrite Hs, Hp.
  - by intros [= <- <-].
Qed.

Lemma ingest_returns inp f (s s1 : State Svc Vec) :
  ingest inp f s = (s1, Ok tt) →
  ∃ temp_path sa sb,
    (temp_write (getvalue f) (svc s)).2 = Ok temp_path ∧
    let kb := new_knowledge_base inp (vector_db (session s)) temp_path in
    sa = {| session := {| vector_db := vector_db (session s);
                          knowledge_base := Some kb;
                          processed_files := processed_files (session s) |};
            environ := environ s;
            chroma := chroma s;
            svc := (temp_write (getvalue f) (svc s)).1;
            calls := calls s ++ [CallTempWrite (getvalue f)];
            page := page s |} ∧
    load_upsert true kb sa = (sb, Ok tt) ∧
    chroma s1 = chroma sb ∧ calls s1 = calls sb ∧
    session s1 = {| vector_db := vector_db (session s);
                    knowledge_base := Some kb;
                    processed_files := processed_files (session s) ∪ {[ file_name f ]} |} ∧
    page s1 = page s ++
      [ {| place := Sidebar; kind := StSuccess;
           text := "✅ Document processed and stored in knowledge base!" |} ].
Proof.
  unfold ingest. unfold bind at 1, service.
  destruct (temp_write (getvalue f) (svc s)) as [v [p|e']]; simpl; [|done].
  unfold bind at 1, get_session at 1. simpl.
  unfold bind at 1, set_session at 1. simpl.
  unfold bind at 1.
  match goal with |- context [load_upsert true ?kb ?s0] =>
    pose proof (load_upsert_session true kb s0) as Hs;
    pose proof (load_upsert_page true kb s0) as Hp;
    destruct (load_upsert true kb s0) as [s2 [[]|e2]] eqn:L
  end; simpl in *; [|done].
  intros [= <-]. simpl. rewrite Hs, Hp. simpl.
  eexists p, _, s2. split; [done|]. split; [reflexivity|]. split; [exact L|]. done.
Qed.

(** *** Who extends the trace, and with what *)

Lemma set_session_calls x : preserves (calls (Svc:=Svc) (Vec:=Vec)) (set_session x).
Proof. by intros s. Qed.

Lemma set_chroma_calls c : preserves (calls (Svc:=Svc) (Vec:=Vec)) (set_chroma c).
Proof. by intros s. Qed.

Hint Resolve set_session_calls set_chroma_calls : frame.

Lemma service_calls_extended {A} c (g : Svc → Svc * result A) :
  stable calls_extended (service c g : Run A).
Proof.
  intros s. unfold service, calls_extended. destruct (g (svc s)). simpl.
  by apply prefix_app_r.
Qed.

Lemma run_runs_only a prompt : stable runs_only (run a prompt : Run _).
Proof.
  intros s. unfold run, service. destruct (agent_run a prompt (svc s)). simpl.
  exists [CallRun (agent_name a) prompt]. split; [done|]. by constructor.
Qed.

Hint Resolve service_calls_extended run_runs_only : frame.
Hint Extern 4 (stable calls_extended _) =>
  apply (preserves_stable calls); [intros ?? Heq; unfold calls_extended; by rewrite Heq|]
  : frame.
Hint Extern 4 (stable runs_only _) =>
  apply (preserves_stable calls);
  [intros ?? Heq; exists []; by rewrite Heq, app_nil_r|] : frame.
Hint Extern 4 (stable session_grows _) =>
  apply (preserves_stable session);
  [intros ?? Heq; unfold session_grows; by rewrite Heq|] : frame.

Lemma upsert_each_calls_extended db cs :
  stable calls_extended (upsert_each db cs : Run _).
Proof. induction cs; simpl; unfold chroma_upsert; auto 20 with frame. Qed.

Hint Resolve upsert_each_calls_extended : frame.

Lemma load_upsert_calls_extended r kb : stable calls_extended (load_upsert r kb : Run _).
Proof. unfold load_upsert, chroma_drop, chroma_create. auto 20 with frame. Qed.

Hint Resolve load_upsert_session load_upsert_page load_upsert_calls_extended : frame.

Lemma service_starts {A} c (g : Svc → Svc * result A) :
  starts_with c (service c g : Run A).
Proof. intros s. unfold service. destruct (g (svc s)). by exists []. Qed.

Lemma starts_with_bind {A B} c (m : Run A) (k : A → Run B) :
  starts_with c m → (∀ a, stable calls_extended (k a)) → starts_with c (bind m k).
Proof.
  intros Hm Hk s. unfold bind. destruct (Hm s) as [rest Hrest].
  destruct (m s) as [s1 [a|e]]; simpl in *; [|by exists rest].
  destruct (Hk a s1) as [more Hmore].
  exists (rest ++ more). rewrite Hmore, Hrest. by rewrite <- app_assoc.
Qed.

(** The ingestion starts by writing the upload to a temporary file. *)
Lemma ingest_starts inp f :
  starts_with (CallTempWrite (getvalue f)) (ingest inp f : Run _).
Proof.
  unfold ingest. apply starts_with_bind; [apply service_starts|].
  intros p. auto 20 with frame.
Qed.

(** *** The upload *)

Lemma upload_processed inp f (s : State Svc Vec) :
  uploaded_file inp = Some f →
  file_name f ∈ processed_files (session s) →
  upload inp s = (s, Ok tt).
Proof.
  intros Hf Hin. unfold upload. rewrite Hf. unfold bind, get_session.
  by rewrite decide_True.
Qed.

Lemma upload_fresh inp f (s : State Svc Vec) :
  uploaded_file inp = Some f →
  file_name f ∉ processed_files (session s) →
  upload inp s =
    try_except (ingest inp f)
      (λ e, draw Sidebar StError ("Error processing document: " +:+ e)) s.
Proof.
  intros Hf Hin. unfold upload. rewrite Hf. unfold bind, get_session.
  by rewrite decide_False.
Qed.

Lemma upload_session_grows inp : stable session_grows (upload inp : Run _).
Proof.
  intros s. unfold upload. destruct (uploaded_file inp) as [f|]; [|done].
  unfold bind, get_session. case_decide; [done|].
  unfold try_except. destruct (ingest inp f s) as [s1 [[]|e]] eqn:E; simpl.
  - apply ingest_returns in E as (p & sa & sb & _ & _ & _ & _ & _ & Hs & _).
    unfold session_grows. rewrite Hs. simpl. split; [done|set_solver].
  - apply ingest_raises in E as (Hp & Hv & _). unfold session_grows, draw. simpl.
    by rewrite Hp, Hv.
Qed.

Lemma load_api_key_session k : preserves session (load_api_key k : Run _).
Proof. unfold load_api_key. auto 10 with frame. Qed.

Lemma load_api_key_chroma k : preserves chroma (load_api_key k : Run _).
Proof. unfold load_api_key. auto 10 with frame. Qed.

Lemma load_api_key_calls k : preserves calls (load_api_key k : Run _).
Proof. unfold load_api_key. auto 10 with frame. Qed.

Hint Resolve upload_session_grows load_api_key_session load_api_key_chroma
  load_api_key_calls : frame.

(** *** The analysis panel talks to the agents and to nothing else *)

Lemma analysis_panel_session inp : preserves session (analysis_panel inp : Run _).
Proof.
  unfold analysis_panel, select_query, analyze_button, analyze, get_team_response, run.
  auto 30 with frame.
Qed.

Lemma analysis_panel_chroma inp : preserves chroma (analysis_panel inp : Run _).
Proof.
  unfold analysis_panel, select_query, analyze_button, analyze, get_team_response, run.
  auto 30 with frame.
Qed.

Lemma analysis_panel_runs_only inp : stable runs_only (analysis_panel inp : Run _).
Proof.
  unfold analysis_panel, select_query, analyze_button, analyze, get_team_response.
  auto 30 with frame.
Qed.

Hint Resolve analysis_panel_session analysis_panel_chroma analysis_panel_runs_only : frame.

(** *** Runs of the script *)

Lemma script_session_grows inp : stable session_grows (script inp : Run _).
Proof. unfold script, sidebar. auto 20 with frame. Qed.

Lemma reruns_session_grows (s : State Svc Vec) inps : session_grows s (reruns s inps).
Proof.
  unfold reruns. revert s. induction inps as [|inp inps IH]; intros s; simpl.
  - reflexivity.
  - etrans; [|apply IH]. unfold rerun.
    apply (script_session_grows inp (clear_page s)).
Qed.

(** The sidebar when the secrets cannot be read: the header, then the
    exception. *)
Lemma sidebar_raises inp (s : State Svc Vec) e :
  secret_api_key inp = Raise e →
  sidebar inp s =
    ({| session := session s; environ := environ s; chroma := chroma s;
        svc := svc s; calls := calls s;
        page := page s ++
          [ {| place := Sidebar; kind := StHeader; text := "Configuration" |} ] |},
     Raise e).
Proof. intros Hsec. unfold sidebar, bind. simpl. by rewrite Hsec. Qed.

Lemma sidebar_upload inp (s : State Svc Vec) api_key :
  secret_api_key inp = Ok api_key →
  ∃ s2, sidebar inp s = upload inp s2 ∧
        session s2 = session s ∧ chroma s2 = chroma s ∧
        calls s2 = calls s ∧ svc s2 = svc s.
Proof.
  intros Hsec. unfold sidebar, load_api_key, bind at 1. simpl.
  unfold bind at 1. rewrite Hsec. simpl.
  destruct api_key as [k|]; [destruct (truthy k)|];
    (eexists; split; [reflexivity|done]).
Qed.

Lemma analysis_panel_calls_extended inp (s : State Svc Vec) :
  calls_extended s (analysis_panel inp s).1.
Proof.
  destruct (analysis_panel_runs_only inp s) as (new & Hnew & _).
  unfold calls_extended. rewrite Hnew. by apply prefix_app_r.
Qed.

Lemma ingest_load_returns inp f (s sb : State Svc Vec) temp_path :
  (temp_write (getvalue f) (svc s)).2 = Ok temp_path →
  let kb := new_knowledge_base inp (vector_db (session s)) temp_path in
  load_upsert true kb
    {| session := {| vector_db := vector_db (session s);
                     knowledge_base := Some kb;
                     processed_files := processed_files (session s) |};
       environ := environ s;
       chroma := chroma s;
       svc := (temp_write (getvalue f) (svc s)).1;
       calls := calls s ++ [CallTempWrite (getvalue f)];
       page := page s |} = (sb, Ok tt) →
  ∃ s1, ingest inp f s = (s1, Ok tt) ∧
        file_name f ∈ processed_files (session s1).
Proof.
  intros Ht kb Hl. unfold ingest. unfold bind at 1, service.
  destruct (temp_write (getvalue f) (svc s)) as [v r]. simpl in Ht, Hl. subst r.
  unfold bind at 1, get_session at 1. simpl.
  unfold bind at 1, set_session at 1. simpl.
  unfold bind at 1. fold kb. rewrite Hl. simpl.
  eexists. split; [reflexivity|]. simpl. set_solver.
Qed.

(** ** The claims on ingestion *)

(** C1 (as amended).  When the ingestion of an upload raises, the exception
    is caught and drawn as an error message in the sidebar, and the set of
    processed files and the store handle are as before.  When it was the
    write of the temporary file that raised, the whole session state and
    the store are as before; when a later step raised, the session's
    knowledge base is already the one made for this upload. *)
Theorem failed_ingestion_is_reported inp f (s s1 : State Svc Vec) e :
  uploaded_file inp = Some f →
  file_name f ∉ processed_files (session s) →
  ingest inp f s = (s1, Raise e) →
  ∃ s', upload inp s = (s', Ok tt) ∧
    page s' = page s ++ [ {| place := Sidebar; kind := StError;
                            text := "Error processing document: " +:+ e |} ] ∧
    processed_files (session s') = processed_files (session s) ∧
    vector_db (session s') = vector_db (session s) ∧
    match (temp_write (getvalue f) (svc s)).2 with
    | Raise _ => session s' = session s ∧ chroma s' = chroma s
    | Ok temp_path =>
        knowledge_base (session s') =
          Some (new_knowledge_base inp (vector_db (session s)) temp_path)
    end.
Proof.
  intros Hf Hin E. rewrite (upload_fresh inp f s Hf Hin).
  unfold try_except. rewrite E.
  apply ingest_raises in E as (Hp & Hv & Hpage & Hk).
  eexists. split; [reflexivity|]. simpl. rewrite Hpage.
  repeat split; try done.
  destruct ((temp_write (getvalue f) (svc s)).2); [done|]. by destruct Hk as (_ & ? & ?).
Qed.

(** C6.  Once a file name is in the set of processed files it stays there
    for the rest of the session, and an upload under that name, whatever
    its content, is skipped: the upload step changes nothing and calls
    nothing, and over the whole run the store is unchanged and the only
    calls started are agent calls. *)
Theorem processed_file_is_not_reingested inp f (s : State Svc Vec) inps :
  uploaded_file inp = Some f →
  file_name f ∈ processed_files (session s) →
  let s1 := reruns s inps in
  upload inp s1 = (s1, Ok tt) ∧
  chroma (rerun s1 inp) = chroma s1 ∧
  session (rerun s1 inp) = session s1 ∧
  runs_only s1 (rerun s1 inp).
Proof.
  intros Hf Hin s1.
  assert (file_name f ∈ processed_files (session s1)) as Hin1.
  { destruct (reruns_session_grows s inps) as [_ Hsub]. set_solver. }
  split; [by apply upload_processed with f|].
  unfold rerun, script.
  destruct (secret_api_key inp) as [api_key|e] eqn:Hsec.
  - destruct (sidebar_upload inp (clear_page s1) api_key Hsec)
      as (s2 & Hside & Hs & Hc & Hcalls & _).
    unfold bind. rewrite Hside, (upload_processed inp f s2) by (by rewrite ?Hs).
    rewrite analysis_panel_session, analysis_panel_chroma, Hs, Hc.
    repeat split.
    destruct (analysis_panel_runs_only inp s2) as (new & Hnew & Hall).
    exists new. by rewrite Hnew, Hcalls.
  - unfold bind. rewrite (sidebar_raises inp (clear_page s1) e Hsec). simpl.
    repeat split. exists []. by rewrite app_nil_r.
Qed.

(** C8 (as amended).  In every state of a session the store handle names
    the collection "law".  An ingestion that returns has written the
    temporary file, dropped and created that collection, and read the
    temporary file; afterwards the collection holds exactly the chunks that
    this read gave: its ids are the ids of those chunks, every text stored in
    it is the text of one of those chunks under its id, and chunks stored
    earlier are gone.  The other collections of the store are as before. *)
Theorem ingestion_recreates_collection env store v inps inp f (s' : State Svc Vec) :
  let s := reruns (session_start env store v) inps in
  ingest inp f s = (s', Ok tt) →
  vector_db (session s) = law_db ∧
  ∃ temp_path v1 v2 v3 v4 cs coll,
    temp_write (getvalue f) (svc s) = (v1, Ok temp_path) ∧
    store_fault (CallDrop "law") v1 = (v2, Ok tt) ∧
    store_fault (CallCreate "law") v2 = (v3, Ok tt) ∧
    read_pdf temp_path {| chunk_size := chunk_size_in inp; overlap := overlap_in inp |} v3
      = (v4, Ok cs) ∧
    chroma s' !! "law" = Some coll ∧
    (∀ i, is_Some (coll !! i) ↔ i ∈ chunk_id <$> cs) ∧
    (∀ i text vec, coll !! i = Some (text, vec) →
       ∃ c, c ∈ cs ∧ chunk_id c = i ∧ chunk_text c = text) ∧
    (∀ c, c ≠ "law" → chroma s' !! c = chroma s !! c).
Proof.
  intros s E.
  assert (vector_db (session s) = law_db) as Hdb.
  { destruct (reruns_session_grows (session_start env store v) inps) as [Hv _].
    exact Hv. }
  split; [done|].
  apply ingest_returns in E as (p & sa & sb & Hw & Hsa & L & Hc & _).
  apply load_recreate_returns in L
    as (v2 & v3 & v4 & cs & es & Hd & Hcr & Hr & Hes & Hchroma & _).
  rewrite Hdb in Hd, Hcr, Hr, Hchroma. simpl in Hd, Hcr, Hr, Hchroma.
  rewrite Hsa in Hd, Hchroma. simpl in Hd, Hchroma.
  destruct (temp_write (getvalue f) (svc s)) as [v1 r] eqn:Ht. simpl in Hw, Hd. subst r.
  exists p, v1, v2, v3, v4, cs, (upsert_chunks es ∅). rewrite Hc, Hchroma.
  split_and!; try done.
  - by rewrite lookup_insert_eq.
  - intros i. rewrite upsert_chunks_lookup, lookup_empty, is_Some_alt, Hes. tauto.
  - intros i text vec [Hin|Hl]%upsert_chunks_lookup_text; [by rewrite <- Hes|].
    by rewrite lookup_empty in Hl.
  - intros c Hne. by rewrite lookup_insert_ne.
Qed.

(** C9.  The upload step leaves a file name that was not yet processed in
    the set of processed files exactly when the temporary file was written
    and the [load] that follows returned.  When the ingestion raises the
    name is not recorded, and the next run with an upload of that name
    starts the ingestion again (a run reaches the upload once its secrets
    lookup has returned). *)
Theorem filename_recorded_only_after_load inp f (s : State Svc Vec) :
  uploaded_file inp = Some f →
  file_name f ∉ processed_files (session s) →
  let s' := (upload inp s).1 in
  (file_name f ∈ processed_files (session s') ↔
   ∃ temp_path sb,
     (temp_write (getvalue f) (svc s)).2 = Ok temp_path ∧
     (let kb := new_knowledge_base inp (vector_db (session s)) temp_path in
      load_upsert true kb
        {| session := {| vector_db := vector_db (session s);
                         knowledge_base := Some kb;
                         processed_files := processed_files (session s) |};
           environ := environ s;
           chroma := chroma s;
           svc := (temp_write (getvalue f) (svc s)).1;
           calls := calls s ++ [CallTempWrite (getvalue f)];
           page := page s |} = (sb, Ok tt))) ∧
  (∀ e, (ingest inp f s).2 = Raise e →
     (file_name f ∉ processed_files (session s')) ∧
     (∀ inp' f' api_key,
        secret_api_key inp' = Ok api_key →
        uploaded_file inp' = Some f' → file_name f' = file_name f →
        ∃ rest, calls (rerun s' inp') = calls s' ++ CallTempWrite (getvalue f') :: rest)).
Proof.
  intros Hf Hin s'.
  assert (∀ e, (ingest inp f s).2 = Raise e →
            file_name f ∉ processed_files (session s')) as Hfail.
  { intros e E. subst s'. rewrite (upload_fresh inp f s Hf Hin). unfold try_except.
    destruct (ingest inp f s) as [s1 r] eqn:E1. simpl in E. subst r.
    apply ingest_raises in E1 as (Hp & _). simpl. by rewrite Hp. }
  split; [split|].
  - intros Hrec. subst s'. rewrite (upload_fresh inp f s Hf Hin) in Hrec.
    unfold try_except in Hrec.
    destruct (ingest inp f s) as [s1 [[]|e]] eqn:E.
    + apply ingest_returns in E as (p & sa & sb & Ht & -> & L & _). by exists p, sb.
    + apply ingest_raises in E as (Hp & _). simpl in Hrec. by rewrite Hp in Hrec.
  - intros (p & sb & Ht & L). subst s'.
    destruct (ingest_load_returns inp f s sb p Ht L) as (s1 & Hok & Hrec).
    rewrite (upload_fresh inp f s Hf Hin). unfold try_except. by rewrite Hok.
  - intros e E. split; [by apply Hfail with e|].
    intros inp' f' api_key Hsec Hf' Hname. unfold rerun, script.
    destruct (sidebar_upload inp' (clear_page s') api_key Hsec)
      as (s2 & Hside & Hs & _ & Hcalls & _).
    assert (file_name f' ∉ processed_files (session s2)) as Hin2.
    { rewrite Hs, Hname. simpl. by apply Hfail with e. }
    assert (∃ rest, calls (upload inp' s2).1 =
                      calls s2 ++ CallTempWrite (getvalue f') :: rest) as [rest Hrest].
    { rewrite (upload_fresh inp' f' s2 Hf' Hin2). unfold try_except.
      destruct (ingest_starts inp' f' s2) as [rest Hrest].
      destruct (ingest inp' f' s2) as [s3 [[]|e3]]; by exists rest. }
    unfold bind. rewrite Hside.
    destruct (upload inp' s2) as [s3 [[]|e3]]; simpl in *.
    + destruct (analysis_panel_calls_extended inp' s3) as [more Hmore].
      exists (rest ++ more). rewrite Hmore, Hrest, Hcalls. simpl.
      by rewrite <- app_assoc.
    + exists rest. by rewrite Hrest, Hcalls.
Qed.

(** ** The analysis panel *)

Lemma or_else_truthy o fallback :
  truthy fallback = true → truthy (or_else o fallback) = true.
Proof. unfold or_else. by destruct o as [[|]|]. Qed.

Lemma predefined_query_found t :
  t ≠ CustomQuery →
  ∃ q, dict_get predefined_queries (label t) = Some q ∧ truthy q = true.
Proof. destruct t; [by eexists..|done]. Qed.

Lemma select_query_returns inp (s : State Svc Vec) :
  ∃ query, select_query inp s = (s, Ok query) ∧
    match analysis_type inp with
    | CustomQuery => query = custom_text inp
    | t => dict_get predefined_queries (label t) = Some query ∧ truthy query = true
    end.
Proof. unfold select_query. destruct (analysis_type inp); by eexists. Qed.

(** The four calls of [get_team_response], when they all return. *)
Lemma get_team_response_returns kb query (s s1 : State Svc Vec) r4 :
  get_team_response kb query s = (s1, Ok r4) →
  ∃ r1 r2 r3 v1 v2 v3,
    agent_run (legal_researcher kb) query (svc s) = (v1, Ok r1) ∧
    agent_run (contract_analyst kb) query v1 = (v2, Ok r2) ∧
    agent_run (legal_strategist kb) query v2 = (v3, Ok r3) ∧
    agent_run team_lead (integrate_prompt r1 r2 r3) v3 = (svc s1, Ok r4) ∧
    calls s1 = calls s ++ [ CallRun "LegalAdvisor" query;
                            CallRun "ContractAnalyst" query;
                            CallRun "LegalStrategist" query;
                            CallRun "teamlead" (integrate_prompt r1 r2 r3) ] ∧
    page s1 = page s ∧ session s1 = session s ∧ chroma s1 = chroma s.
Proof.
  unfold get_team_response, run, bind, service, ret. simpl.
  destruct (agent_run (legal_researcher kb) query (svc s)) as [v1 [r1|e]] eqn:H1;
    simpl; [|done].
  destruct (agent_run (contract_analyst kb) query v1) as [v2 [r2|e]] eqn:H2;
    simpl; [|done].
  destruct (agent_run (legal_strategist kb) query v2) as [v3 [r3|e]] eqn:H3;
    simpl; [|done].
  destruct (agent_run team_lead (integrate_prompt r1 r2 r3) v3) as [v4 [r|e]] eqn:H4;
    simpl; [|done].
  intros [= <- <-]. exists r1, r2, r3, v1, v2, v3. simpl.
  by rewrite <- !app_assoc.
Qed.

(** One Analyze action whose six calls return. *)
Lemma analyze_returns kb query (s : State Svc Vec) r1 r2 r3 r4 r5 r6 v6 :
  answers_in_turn kb query (svc s) r1 r2 r3 r4 r5 r6 v6 →
  analyze kb query s =
    ({| session := session s; environ := environ s; chroma := chroma s;
        svc := v6;
        calls := calls s ++ [ CallRun "LegalAdvisor" query;
                              CallRun "ContractAnalyst" query;
                              CallRun "LegalStrategist" query;
                              CallRun "teamlead" (integrate_prompt r1 r2 r3);
                              CallRun "teamlead" (key_points_prompt r4);
                              CallRun "teamlead" (recommendations_prompt r4) ];
        page := page s ++ [
          {| place := Tab "Analysis"; kind := StSubheader;
             text := "📑 Detailed Analysis" |};
          {| place := Tab "Analysis"; kind := StMarkdown;
             text := or_else (content r4) "No response generated." |};
          {| place := Tab "Key Points"; kind := StSubheader;
             text := "📌 Key Points Summary" |};
          {| place := Tab "Key Points"; kind := StMarkdown;
             text := or_else (content r5) "No summary generated." |};
          {| place := Tab "Recommendations"; kind := StSubheader;
             text := "📋 Recommendations" |};
          {| place := Tab "Recommendations"; kind := StMarkdown;
             text := or_else (content r6) "No recommendations generated." |} ] |},
     Ok tt).
Proof.
  intros (v1 & v2 & v3 & v4 & v5 & H1 & H2 & H3 & H4 & H5 & H6).
  unfold analyze, get_team_response, run, bind, service, ret, draw. simpl.
  rewrite H1. simpl. rewrite H2. simpl. rewrite H3. simpl. rewrite H4. simpl.
  rewrite H5. simpl. rewrite H6. simpl.
  by rewrite <- !app_assoc.
Qed.

Lemma agents_respond_in_turn kb query (v0 : Svc) :
  agents_respond →
  ∃ r1 r2 r3 r4 r5 r6 v6, answers_in_turn kb query v0 r1 r2 r3 r4 r5 r6 v6.
Proof.
  intros Hr. unfold answers_in_turn.
  destruct (Hr (legal_researcher kb) query v0) as (v1 & r1 & H1).
  destruct (Hr (contract_analyst kb) query v1) as (v2 & r2 & H2).
  destruct (Hr (legal_strategist kb) query v2) as (v3 & r3 & H3).
  destruct (Hr team_lead (integrate_prompt r1 r2 r3) v3) as (v4 & r4 & H4).
  destruct (Hr team_lead (key_points_prompt r4) v4) as (v5 & r5 & H5).
  destruct (Hr team_lead (recommendations_prompt r4) v5) as (v6 & r6 & H6).
  exists r1, r2, r3, r4, r5, r6, v6, v1, v2, v3, v4, v5. done.
Qed.

(** With a knowledge base, the button pressed and a query that is not
    empty, the panel draws its header and runs [analyze]. *)
Lemma analysis_panel_analyzes inp kb query (s : State Svc Vec) :
  knowledge_base (session s) = Some kb →
  analyze_clicked inp = true →
  select_query inp s = (s, Ok query) →
  truthy query = true →
  analysis_panel inp s =
    analyze kb query (draw Main StHeader "🔍 Select Analysis Type" s).1.
Proof.
  intros Hkb Hclick Hq Ht. unfold analysis_panel. unfold bind at 1, get_session.
  rewrite Hkb. unfold bind at 1. simpl. unfold bind at 1.
  destruct (select_query_returns inp
              (draw Main StHeader "🔍 Select Analysis Type" s).1) as (q' & Hq' & Hm).
  destruct (select_query_returns inp s) as (q & Hq1 & Hm1).
  assert (q' = query) as ->.
  { rewrite Hq in Hq1. injection Hq1 as <-.
    destruct (analysis_type inp); destruct Hm, Hm1; congruence. }
  simpl in Hq'. rewrite Hq', Hclick. unfold analyze_button. by rewrite Ht.
Qed.

(** The first call of an Analyze action is started whatever comes after. *)
Lemma analyze_starts kb query :
  starts_with (CallRun "LegalAdvisor" query) (analyze kb query : Run _).
Proof.
  unfold analyze, get_team_response.
  apply starts_with_bind; [apply starts_with_bind; [apply service_starts|]|];
    intros r; unfold run; auto 30 with frame.
Qed.

(** *** The page, and the knowledge base, over a run *)

Lemma draw_page_extended p k t :
  stable page_extended (draw p k t : Run _).
Proof. intros s. unfold page_extended. simpl. by apply prefix_app_r. Qed.

Lemma set_environ_page k : preserves (page (Svc:=Svc) (Vec:=Vec)) (set_environ k).
Proof. by intros s. Qed.

Hint Resolve draw_page_extended set_environ_page : frame.
Hint Extern 4 (stable page_extended _) =>
  apply (preserves_stable page); [intros ?? Heq; unfold page_extended; by rewrite Heq|]
  : frame.

Lemma upload_page_extended inp : stable page_extended (upload inp : Run _).
Proof. unfold upload, ingest. auto 30 with frame. Qed.

Lemma analysis_panel_page_extended inp : stable page_extended (analysis_panel inp : Run _).
Proof.
  unfold analysis_panel, select_query, analyze_button, analyze, get_team_response, run.
  auto 30 with frame.
Qed.

Lemma upload_calls_extended inp : stable calls_extended (upload inp : Run _).
Proof. unfold upload, ingest. auto 30 with frame. Qed.

(** The upload step never raises: what the ingestion raises is caught. *)
Lemma upload_returns inp (s : State Svc Vec) : (upload inp s).2 = Ok tt.
Proof.
  unfold upload. destruct (uploaded_file inp) as [f|]; [|done].
  unfold bind, get_session. case_decide; [done|].
  unfold try_except. by destruct (ingest inp f s) as [s1 [[]|e]].
Qed.

Lemma upload_stays_loaded inp : stable stays_loaded (upload inp : Run _).
Proof.
  intros s Hkb. unfold upload. destruct (uploaded_file inp) as [f|]; [|done].
  unfold bind, get_session. case_decide; [done|].
  unfold try_except. destruct (ingest inp f s) as [s1 [[]|e]] eqn:E; simpl.
  - apply ingest_returns in E as (p & sa & sb & _ & _ & _ & _ & _ & Hs & _).
    rewrite Hs. by eexists.
  - apply ingest_raises in E as (_ & _ & _ & Hk).
    destruct ((temp_write (getvalue f) (svc s)).2).
    + rewrite Hk. by eexists.
    + destruct Hk as (_ & Hs & _). by rewrite Hs.
Qed.

(** The sidebar up to the upload, when the secrets lookup returns: two
    headers and, between them, what the key check draws; a key that is not
    empty is exported. *)
Lemma sidebar_reaches_upload inp (s : State Svc Vec) api_key :
  secret_api_key inp = Ok api_key →
  sidebar inp s =
    upload inp
      {| session := session s;
         environ := match api_key with
                    | Some k => if truthy k then Some k else environ s
                    | None => environ s
                    end;
         chroma := chroma s; svc := svc s; calls := calls s;
         page := page s ++ [
           {| place := Sidebar; kind := StHeader; text := "Configuration" |};
           (if truthy_opt api_key
            then {| place := Sidebar; kind := StSuccess;
                    text := "API key loaded from secrets!" |}
            else {| place := Sidebar; kind := StError;
                    text := "Missing Google API Key in Streamlit secrets!" |});
           {| place := Sidebar; kind := StHeader; text := "📄 Document Upload" |} ] |}.
Proof.
  intros Hsec. unfold sidebar, load_api_key, bind at 1. simpl.
  unfold bind at 1. rewrite Hsec. simpl.
  destruct api_key as [k|]; [destruct (truthy k) eqn:Hk|];
    unfold bind; simpl; rewrite ?Hk, <- ?app_assoc; simpl; reflexivity.
Qed.

Lemma script_reaches_upload inp (s : State Svc Vec) api_key :
  secret_api_key inp = Ok api_key →
  script inp s =
    (upload inp >>> analysis_panel inp)
      {| session := session s;
         environ := match api_key with
                    | Some k => if truthy k then Some k else environ s
                    | None => environ s
                    end;
         chroma := chroma s; svc := svc s; calls := calls s;
         page := page s ++ [
           {| place := Sidebar; kind := StHeader; text := "Configuration" |};
           (if truthy_opt api_key
            then {| place := Sidebar; kind := StSuccess;
                    text := "API key loaded from secrets!" |}
            else {| place := Sidebar; kind := StError;
                    text := "Missing Google API Key in Streamlit secrets!" |});
           {| place := Sidebar; kind := StHeader; text := "📄 Document Upload" |} ] |}.
Proof.
  intros Hsec. unfold script. unfold bind at 1.
  by rewrite (sidebar_reaches_upload inp s api_key Hsec).
Qed.

Lemma script_raises inp (s : State Svc Vec) e :
  secret_api_key inp = Raise e →
  script inp s =
    ({| session := session s; environ := environ s; chroma := chroma s;
        svc := svc s; calls := calls s;
        page := page s ++
          [ {| place := Sidebar; kind := StHeader; text := "Configuration" |} ] |},
     Raise e).
Proof. intros Hsec. unfold script, bind. by rewrite (sidebar_raises inp s e Hsec). Qed.

(** With a knowledge base, the button pressed and a query that is not
    empty, a run that gets to the upload starts the call of the first
    agent. *)
Lemma analyze_is_started inp kb (s2 : State Svc Vec) :
  knowledge_base (session s2) = Some kb →
  analyze_clicked inp = true →
  (analysis_type inp = CustomQuery → truthy (custom_text inp) = true) →
  ∃ query before rest,
    (∀ s : State Svc Vec, select_query inp s = (s, Ok query)) ∧
    calls ((upload inp >>> analysis_panel inp) s2).1 =
      calls s2 ++ before ++ CallRun "LegalAdvisor" query :: rest.
Proof.
  intros Hkb Hclick Hcustom. unfold bind.
  pose proof (upload_returns inp s2) as Hret.
  pose proof (upload_calls_extended inp s2) as [before Hbefore].
  pose proof (upload_stays_loaded inp s2) as Hloaded.
  destruct (upload inp s2) as [s3 r]. simpl in *. subst r.
  destruct Hloaded as [kb3 Hkb3]; [rewrite Hkb; by eexists|].
  destruct (select_query_returns inp s3) as (query & Hq3 & Hm3).
  assert (∀ s : State Svc Vec, select_query inp s = (s, Ok query)) as Hq.
  { intros s. destruct (select_query_returns inp s) as (q & Hq & Hm).
    rewrite Hq. destruct (analysis_type inp); destruct Hm, Hm3; congruence. }
  assert (truthy query = true) as Ht.
  { destruct (analysis_type inp) eqn:Ha; try (by destruct Hm3).
    subst query. by apply Hcustom. }
  rewrite (analysis_panel_analyzes inp kb3 query s3 Hkb3 Hclick Hq3 Ht).
  set (s4 := (draw Main StHeader "🔍 Select Analysis Type" s3).1).
  destruct (analyze_starts kb3 query s4) as [rest Hrest].
  exists query, before, rest. split; [done|].
  rewrite Hrest. subst s4. simpl. by rewrite Hbefore, <- app_assoc.
Qed.

(** ** The claims on the analysis *)

(** C2 (as amended).  When the secrets can be read and hold no key, or an
    empty one, every run draws the error message in the sidebar, right
    after the "Configuration" header, and is not blocked: it goes on with
    the upload and the analysis panel on a state in which nothing but the
    page has changed.  A run with a key goes on with the same upload and
    the same panel, on a state that differs in the message drawn and in the
    environment variable only.  So with a knowledge base in the session
    and a query that is not empty, an Analyze action without a key still
    starts the call of the first agent.  When the secrets cannot be read,
    the lookup raises: the run ends with that exception after the
    "Configuration" header, with nothing else drawn, called or changed. *)
Theorem missing_key_blocks_nothing :
  (∀ inp (s : State Svc Vec) api_key,
     truthy_opt api_key = false →
     script (with_secret (Ok api_key) inp) (clear_page s) =
       (upload inp >>> analysis_panel inp)
         {| session := session s; environ := environ s; chroma := chroma s;
            svc := svc s; calls := calls s;
            page := [
              {| place := Sidebar; kind := StHeader; text := "Configuration" |};
              {| place := Sidebar; kind := StError;
                 text := "Missing Google API Key in Streamlit secrets!" |};
              {| place := Sidebar; kind := StHeader; text := "📄 Document Upload" |} ] |}) ∧
  (∀ inp (s : State Svc Vec) k,
     truthy k = true →
     script (with_secret (Ok (Some k)) inp) (clear_page s) =
       (upload inp >>> analysis_panel inp)
         {| session := session s; environ := Some k; chroma := chroma s;
            svc := svc s; calls := calls s;
            page := [
              {| place := Sidebar; kind := StHeader; text := "Configuration" |};
              {| place := Sidebar; kind := StSuccess;
                 text := "API key loaded from secrets!" |};
              {| place := Sidebar; kind := StHeader; text := "📄 Document Upload" |} ] |}) ∧
  (∀ inp kb (s : State Svc Vec) api_key,
     truthy_opt api_key = false →
     knowledge_base (session s) = Some kb →
     analyze_clicked inp = true →
     (analysis_type inp = CustomQuery → truthy (custom_text inp) = true) →
     ∃ query before rest,
       select_query inp s = (s, Ok query) ∧
       calls (rerun s (with_secret (Ok api_key) inp)) =
         calls s ++ before ++ CallRun "LegalAdvisor" query :: rest) ∧
  (∀ inp (s : State Svc Vec) e,
     script (with_secret (Raise e) inp) (clear_page s) =
       ({| session := session s; environ := environ s; chroma := chroma s;
           svc := svc s; calls := calls s;
           page := [
             {| place := Sidebar; kind := StHeader; text := "Configuration" |} ] |},
        Raise e)).
Proof.
  split_and!.
  - intros inp s api_key Hkey.
    rewrite (script_reaches_upload (with_secret (Ok api_key) inp) (clear_page s)
               api_key eq_refl).
    rewrite Hkey. simpl. by destruct api_key as [[|]|].
  - intros inp s k Hk.
    rewrite (script_reaches_upload (with_secret (Ok (Some k)) inp) (clear_page s)
               (Some k) eq_refl).
    simpl. by rewrite Hk.
  - intros inp kb s api_key Hkey Hkb Hclick Hcustom. unfold rerun.
    rewrite (script_reaches_upload (with_secret (Ok api_key) inp) (clear_page s)
               api_key eq_refl).
    change (upload (with_secret (Ok api_key) inp)) with (upload inp).
    change (analysis_panel (with_secret (Ok api_key) inp)) with (analysis_panel inp).
    match goal with |- context [bind _ _ ?s2] =>
      destruct (analyze_is_started inp kb s2 Hkb Hclick Hcustom)
        as (query & before & rest & Hq & Hcalls)
    end.
    exists query, before, rest. split; [apply Hq|exact Hcalls].
  - intros inp s e.
    by rewrite (script_raises (with_secret (Raise e) inp) (clear_page s) e eq_refl).
Qed.

(** An Analyze action that returns has had its six calls answered. *)
Lemma analyze_returns_inv kb query (s s' : State Svc Vec) :
  analyze kb query s = (s', Ok tt) →
  ∃ r1 r2 r3 r4 r5 r6, answers_in_turn kb query (svc s) r1 r2 r3 r4 r5 r6 (svc s').
Proof.
  unfold analyze. unfold bind at 1.
  destruct (get_team_response kb query s) as [s1 [r4|e]] eqn:Hteam; [|done].
  apply get_team_response_returns in Hteam
    as (r1 & r2 & r3 & v1 & v2 & v3 & H1 & H2 & H3 & H4 & _).
  unfold bind, draw, run, service. simpl.
  destruct (agent_run team_lead (key_points_prompt r4) (svc s1)) as [v5 [r5|e]] eqn:H5;
    simpl; [|done].
  destruct (agent_run team_lead (recommendations_prompt r4) v5) as [v6 [r6|e]] eqn:H6;
    simpl; [|done].
  intros [= <-]. simpl.
  exists r1, r2, r3, r4, r5, r6, v1, v2, v3, (svc s1), v5. done.
Qed.

(** C3 (as amended).  With a knowledge base in the session, the Analyze
    button pressed and a query that is not empty: when the six agent calls
    return, each one made in the state of the services that the call before
    it left, the panel runs exactly these six calls in this order, the three
    workers on the query and then the team lead three times, and draws the
    three tabs, each with a text that is not empty.  The panel returns only
    in that case. *)
Theorem analyze_runs_six_calls_in_sequence inp kb query (s : State Svc Vec) :
  knowledge_base (session s) = Some kb →
  analyze_clicked inp = true →
  select_query inp s = (s, Ok query) →
  truthy query = true →
  (∀ r1 r2 r3 r4 r5 r6 v6,
     answers_in_turn kb query (svc s) r1 r2 r3 r4 r5 r6 v6 →
     ∃ analysis key_points recommendations,
       analysis_panel inp s =
         ({| session := session s; environ := environ s; chroma := chroma s;
             svc := v6;
             calls := calls s ++ [ CallRun "LegalAdvisor" query;
                                   CallRun "ContractAnalyst" query;
                                   CallRun "LegalStrategist" query;
                                   CallRun "teamlead" (integrate_prompt r1 r2 r3);
                                   CallRun "teamlead" (key_points_prompt r4);
                                   CallRun "teamlead" (recommendations_prompt r4) ];
             page := page s ++ [
               {| place := Main; kind := StHeader; text := "🔍 Select Analysis Type" |};
               {| place := Tab "Analysis"; kind := StSubheader;
                  text := "📑 Detailed Analysis" |};
               {| place := Tab "Analysis"; kind := StMarkdown; text := analysis |};
               {| place := Tab "Key Points"; kind := StSubheader;
                  text := "📌 Key Points Summary" |};
               {| place := Tab "Key Points"; kind := StMarkdown; text := key_points |};
               {| place := Tab "Recommendations"; kind := StSubheader;
                  text := "📋 Recommendations" |};
               {| place := Tab "Recommendations"; kind := StMarkdown;
                  text := recommendations |} ] |},
          Ok tt) ∧
       analysis ≠ "" ∧ key_points ≠ "" ∧ recommendations ≠ "") ∧
  (∀ s', analysis_panel inp s = (s', Ok tt) →
     ∃ r1 r2 r3 r4 r5 r6,
       answers_in_turn kb query (svc s) r1 r2 r3 r4 r5 r6 (svc s')).
Proof.
  intros Hkb Hclick Hq Ht.
  rewrite (analysis_panel_analyzes inp kb query s Hkb Hclick Hq Ht). split.
  - intros r1 r2 r3 r4 r5 r6 v6 Hchain.
    rewrite (analyze_returns kb query _ r1 r2 r3 r4 r5 r6 v6) by exact Hchain.
    exists (or_else (content r4) "No response generated."),
           (or_else (content r5) "No summary generated."),
           (or_else (content r6) "No recommendations generated.").
    simpl. rewrite <- app_assoc. split; [done|].
    assert (∀ o fb, truthy fb = true → or_else o fb ≠ "") as Hne.
    { intros o fb Hfb Heq. pose proof (or_else_truthy o fb Hfb) as Hor.
      by rewrite Heq in Hor. }
    split_and!; by apply Hne.
  - intros s' Hret. by apply analyze_returns_inv in Hret.
Qed.

(** C4 (as amended).  Once [get_team_response] has returned the team lead's
    integrated report, the team lead is called a second time, on a prompt
    that ends with the content of that report (with "None" when the report
    has no content).  When this call returns, the team lead is called a
    third time, on a prompt that ends with the content of that same report,
    not with what the second call returned.  When the second call raises,
    the exception leaves [analyze] and there is no third call. *)
Theorem team_lead_rereads_its_report kb query (s s1 : State Svc Vec) response :
  get_team_response kb query s = (s1, Ok response) →
  let carried := match content response with
                 | Some text => text
                 | None => "None"
                 end in
  let second := "Summarize the key legal points from this analysis:" +:+ nl +:+ carried in
  let third := "Provide legal recommendations based on this analysis:" +:+ nl +:+ carried in
  (∃ r1 r2 r3 v3 before,
     agent_run team_lead (integrate_prompt r1 r2 r3) v3 = (svc s1, Ok response) ∧
     calls s1 = before ++ [CallRun "teamlead" (integrate_prompt r1 r2 r3)]) ∧
  match agent_run team_lead second (svc s1) with
  | (_, Ok _) =>
      calls (analyze kb query s).1 =
        calls s1 ++ [CallRun "teamlead" second; CallRun "teamlead" third]
  | (_, Raise e) =>
      calls (analyze kb query s).1 = calls s1 ++ [CallRun "teamlead" second] ∧
      (analyze kb query s).2 = Raise e
  end.
Proof.
  intros Hteam carried second third. split.
  - apply get_team_response_returns in Hteam
      as (r1 & r2 & r3 & v1 & v2 & v3 & _ & _ & _ & H4 & Hcalls & _).
    exists r1, r2, r3, v3,
      (calls s ++ [ CallRun "LegalAdvisor" query; CallRun "ContractAnalyst" query;
                    CallRun "LegalStrategist" query ]).
    split; [done|]. by rewrite Hcalls, <- app_assoc.
  - unfold analyze, bind. rewrite Hteam.
    unfold draw, run, service. simpl.
    change (key_points_prompt response) with second.
    change (recommendations_prompt response) with third.
    destruct (agent_run team_lead second (svc s1)) as [v5 [r5|e]]; simpl.
    + destruct (agent_run team_lead third v5) as [v6 [r6|e]];
        simpl; by rewrite <- app_assoc.
    + done.
Qed.

(** C7.  Every analysis type but "Custom Query" has a canned query, and it
    is not empty.  With "Custom Query" and an empty text, pressing Analyze
    draws the warning and nothing else happens: no call is started. *)
Theorem canned_queries_and_empty_query_guard :
  (∀ t, t ≠ CustomQuery →
     ∃ query, dict_get predefined_queries (label t) = Some query ∧ query ≠ "" ∧
       ∀ inp (s : State Svc Vec), analysis_type inp = t →
         select_query inp s = (s, Ok query)) ∧
  (∀ inp kb (s : State Svc Vec),
     knowledge_base (session s) = Some kb →
     analysis_type inp = CustomQuery →
     custom_text inp = "" →
     analyze_clicked inp = true →
     analysis_panel inp s =
       ({| session := session s; environ := environ s; chroma := chroma s;
           svc := svc s; calls := calls s;
           page := page s ++ [
             {| place := Main; kind := StHeader; text := "🔍 Select Analysis Type" |};
             {| place := Main; kind := StWarning; text := "Please enter a query." |} ] |},
        Ok tt)).
Proof.
  split.
  - intros t Ht. destruct (predefined_query_found t Ht) as (q & Hq & Htr).
    exists q. split_and!; [done|by intros ->|].
    intros inp s Ha. unfold select_query. rewrite Ha.
    destruct t; [by injection Hq as <-..|done].
  - intros inp kb s Hkb Ha Hc Hclick.
    unfold analysis_panel, select_query, analyze_button, bind, get_session, draw, ret.
    rewrite Hkb, Ha, Hc, Hclick. simpl. by rewrite <- app_assoc.
Qed.

(** C10.  The guard of the Analyze button looks at emptiness only.  There
    is a custom query made of white space alone that passes it: the panel
    runs [analyze] on that query, which starts the call of the first agent
    with the white space as prompt, and all six calls when the agents
    answer. *)
Theorem whitespace_query_passes_the_guard :
  ∃ query, query ≠ "" ∧ whitespace_only query = true ∧
    ∀ inp kb (s : State Svc Vec),
      knowledge_base (session s) = Some kb →
      analysis_type inp = CustomQuery →
      custom_text inp = query →
      analyze_clicked inp = true →
      analysis_panel inp s =
        analyze kb query (draw Main StHeader "🔍 Select Analysis Type" s).1 ∧
      (∃ rest, calls (analysis_panel inp s).1 =
                 calls s ++ CallRun "LegalAdvisor" query :: rest) ∧
      (agents_respond →
       ∃ r1 r2 r3 r4,
         calls (analysis_panel inp s).1 =
           calls s ++ [ CallRun "LegalAdvisor" query;
                        CallRun "ContractAnalyst" query;
                        CallRun "LegalStrategist" query;
                        CallRun "teamlead" (integrate_prompt r1 r2 r3);
                        CallRun "teamlead" (key_points_prompt r4);
                        CallRun "teamlead" (recommendations_prompt r4) ]).
Proof.
  exists " ". split_and!; [done..|].
  intros inp kb s Hkb Ha Hc Hclick.
  assert (select_query inp s = (s, Ok " ")) as Hq.
  { unfold select_query. by rewrite Ha, Hc. }
  rewrite (analysis_panel_analyzes inp kb " " s Hkb Hclick Hq eq_refl).
  split_and!; [done| |].
  - destruct (analyze_starts kb " " (draw Main StHeader "🔍 Select Analysis Type" s).1)
      as [rest Hrest].
    exists rest. by rewrite Hrest.
  - intros Hr.
    destruct (agents_respond_in_turn kb " " (svc s) Hr)
      as (r1 & r2 & r3 & r4 & r5 & r6 & v6 & Hchain).
    exists r1, r2, r3, r4.
    by rewrite (analyze_returns kb " " _ r1 r2 r3 r4 r5 r6 v6) by exact Hchain.
Qed.

(** ** More of the script: what a run may raise, call and change *)

(** *** Exceptions *)

Lemma throws_ret {A} P (a : A) : throws P (ret a : Run A).
Proof. by intros s s' e. Qed.

Lemma throws_bind {A B} P (m : Run A) (k : A → Run B) :
  throws P m → (∀ a, throws P (k a)) → throws P (bind m k).
Proof.
  intros Hm Hk s s' e. unfold bind. destruct (m s) as [s1 [a|e1]] eqn:E.
  - apply Hk.
  - intros [= <- <-]. by apply Hm in E.
Qed.

Lemma throws_try_except {A} P (m : Run A) (h : exn → Run A) :
  (∀ e, throws P (h e)) → throws P (try_except m h).
Proof.
  intros Hh s s' e. unfold try_except. destruct (m s) as [s1 [a|e1]]; [done|].
  apply Hh.
Qed.

Lemma get_session_throws P : throws P (get_session : Run _).
Proof. by intros s s' e. Qed.

Lemma set_session_throws P x : throws P (set_session x : Run _).
Proof. by intros s s' e. Qed.

Lemma set_environ_throws P k : throws P (set_environ k : Run _).
Proof. by intros s s' e. Qed.

Lemma draw_throws P p k t : throws P (draw p k t : Run _).
Proof. by intros s s' e. Qed.

Lemma run_throws a prompt : throws agent_raised (run a prompt : Run _).
Proof.
  intros s s' e. unfold run, service.
  destruct (agent_run a prompt (svc s)) as [v r] eqn:E. intros [= <- ->].
  by exists a, prompt, (svc s), v.
Qed.

Lemma select_query_throws P inp : throws P (select_query inp : Run _).
Proof.
  intros s s' e He. destruct (select_query_returns inp s) as (q & Hq & _).
  by rewrite Hq in He.
Qed.

Lemma upload_throws P inp : throws P (upload inp : Run _).
Proof.
  intros s s' e He. pose proof (upload_returns inp s) as Hr.
  by rewrite He in Hr.
Qed.

Hint Resolve throws_ret get_session_throws set_session_throws set_environ_throws
  draw_throws run_throws select_query_throws upload_throws : frame.
Hint Extern 2 (throws _ (bind _ _)) => apply throws_bind; [|intros ?] : frame.
Hint Extern 2 (throws _ (try_except _ _)) => apply throws_try_except; intros ? : frame.
Hint Extern 5 (throws _ (match ?x with _ => _ end)) => destruct x : frame.

Lemma throws_weaken {A} (P Q : exn → Prop) (m : Run A) :
  (∀ e, P e → Q e) → throws P m → throws Q m.
Proof. intros HPQ Hm s s' e He. by apply HPQ, (Hm s s'). Qed.

Lemma secrets_get_throws lookup :
  throws (λ e, lookup = Raise e) (secrets_get lookup : Run _).
Proof. intros s s' e. by destruct lookup; intros [= <- <-]. Qed.

Lemma load_api_key_throws P api_key : throws P (load_api_key api_key : Run _).
Proof. unfold load_api_key. auto 10 with frame. Qed.

Hint Resolve secrets_get_throws load_api_key_throws : frame.

Lemma sidebar_throws inp :
  throws (λ e, secret_api_key inp = Raise e) (sidebar inp : Run _).
Proof. unfold sidebar. auto 20 with frame. Qed.

Lemma analysis_panel_throws inp : throws agent_raised (analysis_panel inp : Run _).
Proof.
  unfold analysis_panel, analyze_button, analyze, get_team_response.
  auto 40 with frame.
Qed.

Lemma script_throws inp :
  throws (λ e, secret_api_key inp = Raise e ∨ agent_raised e) (script inp : Run _).
Proof.
  unfold script. apply throws_bind.
  - apply throws_weaken with (λ e, secret_api_key inp = Raise e); [tauto|].
    apply sidebar_throws.
  - intros _. apply throws_weaken with agent_raised; [tauto|].
    apply analysis_panel_throws.
Qed.

(** *** The environment variable *)

Lemma draw_environ p k t : preserves (environ (Svc:=Svc) (Vec:=Vec)) (draw p k t).
Proof. by intros s. Qed.

Lemma set_session_environ x : preserves (environ (Svc:=Svc) (Vec:=Vec)) (set_session x).
Proof. by intros s. Qed.

Lemma set_chroma_environ c : preserves (environ (Svc:=Svc) (Vec:=Vec)) (set_chroma c).
Proof. by intros s. Qed.

Hint Resolve draw_environ set_session_environ set_chroma_environ : frame.

Lemma upsert_each_environ db cs : preserves environ (upsert_each db cs : Run _).
Proof. induction cs; simpl; unfold chroma_upsert; auto 20 with frame. Qed.

Hint Resolve upsert_each_environ : frame.

Lemma upload_environ inp : preserves environ (upload inp : Run _).
Proof.
  unfold upload, ingest, load_upsert, chroma_drop, chroma_create.
  auto 40 with frame.
Qed.

Lemma analysis_panel_environ inp : preserves environ (analysis_panel inp : Run _).
Proof.
  unfold analysis_panel, select_query, analyze_button, analyze, get_team_response, run.
  auto 30 with frame.
Qed.

(** *** The calls of the sidebar *)

#[local] Instance ingestion_only_preorder : PreOrder (@ingestion_only Svc Vec).
Proof.
  split.
  - intros s. exists []. by rewrite app_nil_r.
  - intros s1 s2 s3 (n1 & H1 & F1) (n2 & H2 & F2). exists (n1 ++ n2). split.
    + by rewrite H2, H1, app_assoc.
    + by apply Forall_app.
Qed.

Lemma service_ingestion_only {A} c (g : Svc → Svc * result A) :
  is_ingestion_call c = true → stable ingestion_only (service c g : Run A).
Proof.
  intros Hc s. unfold service. destruct (g (svc s)). simpl.
  exists [c]. split; [done|]. by constructor.
Qed.

Hint Extern 3 (stable ingestion_only (service _ _)) =>
  apply service_ingestion_only; reflexivity : frame.
Hint Extern 4 (stable ingestion_only _) =>
  apply (preserves_stable calls);
  [intros ?? Heq; exists []; by rewrite Heq, app_nil_r|] : frame.

Lemma upsert_each_ingestion_only db cs :
  stable ingestion_only (upsert_each db cs : Run _).
Proof. induction cs; simpl; unfold chroma_upsert; auto 20 with frame. Qed.

Hint Resolve upsert_each_ingestion_only : frame.

Lemma sidebar_ingestion_only inp : stable ingestion_only (sidebar inp : Run _).
Proof.
  unfold sidebar, load_api_key, upload, ingest, load_upsert, chroma_drop,
    chroma_create.
  auto 40 with frame.
Qed.

(** The sidebar raises what the secrets lookup raises, and nothing else. *)
Lemma sidebar_returns inp (s : State Svc Vec) :
  (sidebar inp s).2 =
    match secret_api_key inp with
    | Ok _ => Ok tt
    | Raise e => Raise e
    end.
Proof.
  destruct (secret_api_key inp) as [api_key|e] eqn:Hsec.
  - destruct (sidebar_upload inp s api_key Hsec) as (s2 & -> & _).
    apply upload_returns.
  - by rewrite (sidebar_raises inp s e Hsec).
Qed.

(** The panel when the button is not pressed: at most its header. *)
Lemma analysis_panel_idle inp (s : State Svc Vec) :
  analyze_clicked inp = false →
  analysis_panel inp s =
    (match knowledge_base (session s) with
     | Some _ => (draw Main StHeader "🔍 Select Analysis Type" s).1
     | None => s
     end, Ok tt).
Proof.
  intros Hclick. unfold analysis_panel. unfold bind at 1, get_session.
  destruct (knowledge_base (session s)) as [kb|]; [|done].
  unfold bind at 1. simpl. unfold bind at 1.
  destruct (select_query_returns inp
              (draw Main StHeader "🔍 Select Analysis Type" s).1) as (q & Hq & _).
  simpl in Hq. by rewrite Hq, Hclick.
Qed.

(** X1.  A run in which Analyze is not pressed calls no agent, whatever
    the services do: the only calls it starts are calls of the ingestion.
    It raises exactly when the secrets lookup raises, and then that
    exception; what the ingestion raises is caught. *)
Theorem run_without_analyze_is_safe inp (s : State Svc Vec) :
  analyze_clicked inp = false →
  (script inp s).2 = match secret_api_key inp with
                     | Ok _ => Ok tt
                     | Raise e => Raise e
                     end ∧
  ingestion_only s (script inp s).1.
Proof.
  intros Hclick. unfold script, bind.
  pose proof (sidebar_returns inp s) as Hret.
  pose proof (sidebar_ingestion_only inp s) as Hing.
  destruct (sidebar inp s) as [s1 r]. simpl in Hret, Hing. subst r.
  destruct (secret_api_key inp) as [api_key|e]; [|done].
  rewrite (analysis_panel_idle inp s1 Hclick). simpl. split; [done|].
  by destruct (knowledge_base (session s1)).
Qed.

(** X2.  An exception leaves a run of the script only if the secrets lookup
    raised it or an [Agent.run] raised it: what the temporary file, the PDF
    reader, the embedder and the store raise is caught in the sidebar, and
    the lookup of the canned query cannot fail. *)
Theorem only_agent_exceptions_escape inp (s s' : State Svc Vec) e :
  script inp s = (s', Raise e) →
  secret_api_key inp = Raise e ∨
  ∃ a prompt v v', agent_run a prompt v = (v', Raise e).
Proof. intros He. by apply (script_throws inp s s' e). Qed.

(** *** An agent call that raises *)

(** X3.  When the call of the legal researcher raises, the run ends with
    that exception: the panel has drawn its header and no tab, the call of
    the researcher is the only call started, and the session and the store
    are untouched. *)
Theorem researcher_failure_ends_the_run inp kb query (s : State Svc Vec) v e :
  knowledge_base (session s) = Some kb →
  analyze_clicked inp = true →
  select_query inp s = (s, Ok query) →
  truthy query = true →
  agent_run (legal_researcher kb) query (svc s) = (v, Raise e) →
  analysis_panel inp s =
    ({| session := session s; environ := environ s; chroma := chroma s;
        svc := v;
        calls := calls s ++ [CallRun "LegalAdvisor" query];
        page := page s ++ [
          {| place := Main; kind := StHeader; text := "🔍 Select Analysis Type" |} ] |},
     Raise e).
Proof.
  intros Hkb Hclick Hq Ht Hrun.
  rewrite (analysis_panel_analyzes inp kb query s Hkb Hclick Hq Ht).
  unfold analyze, get_team_response, run, bind, service, draw. simpl.
  by rewrite Hrun.
Qed.

(** X4.  When the four calls of [get_team_response] have returned and the
    team lead's call for the key points raises, the run ends with that
    exception and a page drawn in part: the Analysis tab is complete, the
    Key Points tab has its subheader only, and the Recommendations tab is
    not drawn nor its call started. *)
Theorem key_points_failure_leaves_partial_page kb query (s s1 : State Svc Vec)
    response v5 e :
  get_team_response kb query s = (s1, Ok response) →
  agent_run team_lead (key_points_prompt response) (svc s1) = (v5, Raise e) →
  page s1 = page s ∧
  analyze kb query s =
    ({| session := session s1; environ := environ s1; chroma := chroma s1;
        svc := v5;
        calls := calls s1 ++ [CallRun "teamlead" (key_points_prompt response)];
        page := page s1 ++ [
          {| place := Tab "Analysis"; kind := StSubheader;
             text := "📑 Detailed Analysis" |};
          {| place := Tab "Analysis"; kind := StMarkdown;
             text := or_else (content response) "No response generated." |};
          {| place := Tab "Key Points"; kind := StSubheader;
             text := "📌 Key Points Summary" |} ] |},
     Raise e).
Proof.
  intros Hteam H5. split.
  - by apply get_team_response_returns in Hteam
      as (r1 & r2 & r3 & v1 & v2 & v3 & _ & _ & _ & _ & _ & Hpage & _).
  - unfold analyze. unfold bind at 1. rewrite Hteam.
    unfold bind, draw, run, service. simpl. rewrite H5. simpl.
    by rewrite <- !app_assoc.
Qed.

(** *** Invariants of the session *)

Hint Extern 4 (stable stays_loaded _) =>
  apply (preserves_stable session);
  [intros ?? Heq; unfold stays_loaded; by rewrite Heq|] : frame.
Hint Resolve upload_stays_loaded : frame.

Lemma script_stays_loaded inp : stable stays_loaded (script inp : Run _).
Proof. unfold script, sidebar. auto 20 with frame. Qed.

(** X5.  A session that has a knowledge base has one after any further
    runs: nothing in the script sets it back to [None]. *)
Theorem knowledge_base_stays_loaded (s : State Svc Vec) inps :
  is_Some (knowledge_base (session s)) →
  is_Some (knowledge_base (session (reruns s inps))).
Proof.
  unfold reruns. revert s. induction inps as [|inp inps IH]; intros s Hkb; simpl.
  - done.
  - apply IH. unfold rerun. by apply (script_stays_loaded inp (clear_page s)).
Qed.

(** What the upload step can do to the session: nothing, or put there a
    knowledge base on the session's own store handle. *)
Lemma upload_session_cases inp (s : State Svc Vec) :
  session (upload inp s).1 = session s ∨
  vector_db (session (upload inp s).1) = vector_db (session s) ∧
  ∃ temp_path,
    knowledge_base (session (upload inp s).1) =
      Some (new_knowledge_base inp (vector_db (session s)) temp_path).
Proof.
  unfold upload. destruct (uploaded_file inp) as [f|]; [|by left].
  unfold bind, get_session. case_decide; [by left|].
  unfold try_except. destruct (ingest inp f s) as [s1 [[]|e]] eqn:E; simpl.
  - apply ingest_returns in E as (p & sa & sb & _ & _ & _ & _ & _ & Hs & _).
    right. rewrite Hs. simpl. eauto.
  - apply ingest_raises in E as (_ & Hv & _ & Hk).
    destruct ((temp_write (getvalue f) (svc s)).2) as [p|e'].
    + right. eauto.
    + left. by destruct Hk as (_ & ? & _).
Qed.

Lemma script_session_cases inp (s : State Svc Vec) :
  session (script inp s).1 = session s ∨
  vector_db (session (script inp s).1) = vector_db (session s) ∧
  ∃ temp_path,
    knowledge_base (session (script inp s).1) =
      Some (new_knowledge_base inp (vector_db (session s)) temp_path).
Proof.
  unfold script, bind.
  destruct (secret_api_key inp) as [api_key|e] eqn:Hsec;
    [|rewrite (sidebar_raises inp s e Hsec); by left].
  destruct (sidebar_upload inp s api_key Hsec) as (s2 & Hside & Hs & _).
  rewrite Hside. pose proof (upload_session_cases inp s2) as Hcases.
  pose proof (upload_returns inp s2) as Hret.
  destruct (upload inp s2) as [s3 r]. simpl in *. subst r.
  pose proof (analysis_panel_session inp s3) as Hp. unfold preserves in Hp.
  rewrite !Hp, <- Hs. exact Hcases.
Qed.

(** X6.  In every state of a session the knowledge base, when there is
    one, is built on the session's store handle, the collection "law": the
    agents never search another collection. *)
Theorem knowledge_base_is_on_the_law_collection env store v inps kb :
  knowledge_base (session (reruns (session_start env store v) inps)) = Some kb →
  kb_vector_db kb = law_db ∧
  vector_db (session (reruns (session_start env store v) inps)) = law_db.
Proof.
  assert (∀ (s : State Svc Vec) inps,
            vector_db (session s) = law_db →
            (∀ kb, knowledge_base (session s) = Some kb → kb_vector_db kb = law_db) →
            vector_db (session (reruns s inps)) = law_db ∧
            ∀ kb, knowledge_base (session (reruns s inps)) = Some kb →
                  kb_vector_db kb = law_db) as Hinv.
  { clear. intros s inps. unfold reruns. revert s.
    induction inps as [|inp inps IH]; intros s Hdb Hkb; simpl; [done|].
    apply IH; unfold rerun;
      destruct (script_session_cases inp (clear_page s)) as [Hs|(Hv & p & Hk)];
      simpl in *.
    - by rewrite Hs.
    - by rewrite Hv.
    - by rewrite Hs.
    - intros kb. rewrite Hk. intros [= <-]. simpl. exact Hdb. }
  intros Hkb.
  destruct (Hinv (session_start env store v) inps) as [Hdb Hall]; [done..|].
  split; [by apply Hall|exact Hdb].
Qed.

(** X7.  In every state of a session, if some file is recorded as processed
    then the session has a knowledge base. *)
Theorem processed_file_implies_knowledge_base env store v inps name :
  name ∈ processed_files (session (reruns (session_start env store v) inps)) →
  is_Some (knowledge_base (session (reruns (session_start env store v) inps))).
Proof.
  assert (∀ (s : State Svc Vec) inps,
            (∀ n, n ∈ processed_files (session s) →
                  is_Some (knowledge_base (session s))) →
            ∀ n, n ∈ processed_files (session (reruns s inps)) →
                 is_Some (knowledge_base (session (reruns s inps)))) as Hinv.
  { clear. intros s inps. unfold reruns. revert s.
    induction inps as [|inp inps IH]; intros s Hs; simpl; [done|].
    apply IH. unfold rerun.
    destruct (script_session_cases inp (clear_page s)) as [Heq|(_ & p & Hk)].
    - rewrite Heq. exact Hs.
    - intros n _. rewrite Hk. by eexists. }
  apply Hinv. intros n Hn. simpl in Hn. by apply not_elem_of_empty in Hn.
Qed.

(** *** The ingestion, call by call *)

(** X8.  An ingestion that returns began with these calls, in this order:
    the write of the temporary file; the drop and the creation of the
    collection; the read of the temporary file with the chunk size and the
    overlap of the widgets, whatever their values.  Every call it made
    after them is the embedding of a chunk or an upsert.  The session's
    knowledge base is then the one made for this temporary file, and the
    file name is recorded. *)
Theorem successful_ingestion_calls inp f (s s1 : State Svc Vec) :
  ingest inp f s = (s1, Ok tt) →
  ∃ temp_path v1 v2 v3 v4 cs rest,
    temp_write (getvalue f) (svc s) = (v1, Ok temp_path) ∧
    store_fault (CallDrop (collection (vector_db (session s)))) v1 = (v2, Ok tt) ∧
    store_fault (CallCreate (collection (vector_db (session s)))) v2 = (v3, Ok tt) ∧
    read_pdf temp_path {| chunk_size := chunk_size_in inp; overlap := overlap_in inp |} v3
      = (v4, Ok cs) ∧
    calls s1 = calls s ++
      [ CallTempWrite (getvalue f);
        CallDrop (collection (vector_db (session s)));
        CallCreate (collection (vector_db (session s)));
        CallReadPdf temp_path {| chunk_size := chunk_size_in inp;
                                 overlap := overlap_in inp |} ] ++ rest ∧
    Forall (λ c, is_embed_or_upsert c = true) rest ∧
    knowledge_base (session s1) =
      Some (new_knowledge_base inp (vector_db (session s)) temp_path) ∧
    file_name f ∈ processed_files (session s1).
Proof.
  intros E.
  apply ingest_returns in E as (p & sa & sb & Hw & -> & L & _ & Hcalls & Hs & _).
  apply load_recreate_returns in L
    as (v2 & v3 & v4 & cs & es & Hd & Hcr & Hr & _ & _ & rest & Htrace & Hall).
  simpl in Hd, Hcr, Hr, Htrace.
  destruct (temp_write (getvalue f) (svc s)) as [v1 r] eqn:Ht. simpl in Hw, Hd. subst r.
  exists p, v1, v2, v3, v4, cs, rest. rewrite Hcalls, Htrace, Hs. simpl.
  split_and!; try done; [by rewrite <- app_assoc|set_solver].
Qed.

(** X9.  When the temporary file is written, the collection dropped and
    created, and the PDF reader then raises, the upload step ends with the
    error drawn and the collection empty: the chunks that an earlier
    ingestion stored are lost although this ingestion failed. *)
Theorem failed_read_empties_collection inp f (s : State Svc Vec)
    temp_path v1 v2 v3 v4 e :
  uploaded_file inp = Some f →
  file_name f ∉ processed_files (session s) →
  temp_write (getvalue f) (svc s) = (v1, Ok temp_path) →
  store_fault (CallDrop (collection (vector_db (session s)))) v1 = (v2, Ok tt) →
  store_fault (CallCreate (collection (vector_db (session s)))) v2 = (v3, Ok tt) →
  read_pdf temp_path {| chunk_size := chunk_size_in inp; overlap := overlap_in inp |} v3
    = (v4, Raise e) →
  upload inp s =
    ({| session := {| vector_db := vector_db (session s);
                      knowledge_base :=
                        Some (new_knowledge_base inp (vector_db (session s)) temp_path);
                      processed_files := processed_files (session s) |};
        environ := environ s;
        chroma := <[collection (vector_db (session s)) := ∅]> (chroma s);
        svc := v4;
        calls := calls s ++
          [ CallTempWrite (getvalue f);
            CallDrop (collection (vector_db (session s)));
            CallCreate (collection (vector_db (session s)));
            CallReadPdf temp_path {| chunk_size := chunk_size_in inp;
                                     overlap := overlap_in inp |} ];
        page := page s ++
          [ {| place := Sidebar; kind := StError;
               text := "Error processing document: " +:+ e |} ] |},
     Ok tt).
Proof.
  intros Hf Hin Hw Hd Hc Hr. rewrite (upload_fresh inp f s Hf Hin).
  unfold try_except, ingest. unfold bind at 1, service. rewrite Hw. simpl.
  unfold bind at 1, get_session at 1. simpl.
  unfold bind at 1, set_session at 1. simpl.
  unfold bind at 1.
  unfold load_upsert, chroma_drop, chroma_create. simpl.
  unfold bind at 1. unfold bind at 1. unfold service at 1. simpl. rewrite Hd.
  unfold bind at 1, get_chroma at 1, set_chroma at 1. simpl.
  unfold bind at 1. unfold bind at 1. unfold get_chroma at 1. simpl.
  rewrite lookup_delete_eq.
  unfold bind at 1. unfold service at 1. simpl. rewrite Hc.
  unfold bind at 1, get_chroma at 1, set_chroma at 1. simpl.
  unfold bind at 1. unfold service at 1. simpl. rewrite Hr. simpl.
  unfold draw. simpl. by rewrite insert_delete_eq, <- !app_assoc.
Qed.

(** *** Runs that only draw *)

(** The sidebar when the secrets lookup returns and there is nothing to
    ingest. *)
Lemma sidebar_quiet inp (s : State Svc Vec) api_key :
  secret_api_key inp = Ok api_key →
  (∀ f, uploaded_file inp = Some f → file_name f ∈ processed_files (session s)) →
  sidebar inp s =
    ({| session := session s;
        environ := match api_key with
                   | Some k => if truthy k then Some k else environ s
                   | None => environ s
                   end;
        chroma := chroma s; svc := svc s; calls := calls s;
        page := page s ++ [
          {| place := Sidebar; kind := StHeader; text := "Configuration" |};
          (if truthy_opt api_key
           then {| place := Sidebar; kind := StSuccess;
                   text := "API key loaded from secrets!" |}
           else {| place := Sidebar; kind := StError;
                   text := "Missing Google API Key in Streamlit secrets!" |});
          {| place := Sidebar; kind := StHeader; text := "📄 Document Upload" |} ] |},
     Ok tt).
Proof.
  intros Hsec Hup. rewrite (sidebar_reaches_upload inp s api_key Hsec).
  destruct (uploaded_file inp) as [f|] eqn:Hf.
  - apply upload_processed with f; [done|]. simpl. by apply Hup.
  - unfold upload. by rewrite Hf.
Qed.

(** X10.  After a run the environment variable holds the key of the
    secrets when that key is not empty; with a missing or empty key, and
    when the lookup raises, it is left as it was, so a key exported by an
    earlier run stays exported. *)
Theorem api_key_is_exported inp (s : State Svc Vec) :
  environ (rerun s inp) =
    match secret_api_key inp with
    | Ok (Some k) => if truthy k then Some k else environ s
    | Ok None => environ s
    | Raise _ => environ s
    end.
Proof.
  unfold rerun. destruct (secret_api_key inp) as [api_key|e] eqn:Hsec.
  - rewrite (script_reaches_upload inp (clear_page s) api_key Hsec). unfold bind.
    match goal with |- context [upload inp ?s2] =>
      pose proof (upload_environ inp s2) as Hup;
      destruct (upload inp s2) as [s3 [[]|e]]
    end; simpl in *.
    + rewrite analysis_panel_environ, Hup. by destruct api_key.
    + rewrite Hup. by destruct api_key.
  - by rewrite (script_raises inp (clear_page s) e Hsec).
Qed.

Lemma idle_rerun inp (s : State Svc Vec) api_key :
  secret_api_key inp = Ok api_key →
  analyze_clicked inp = false →
  (∀ f, uploaded_file inp = Some f → file_name f ∈ processed_files (session s)) →
  rerun s inp =
    {| session := session s;
       environ := match api_key with
                  | Some k => if truthy k then Some k else environ s
                  | None => environ s
                  end;
       chroma := chroma s; svc := svc s; calls := calls s;
       page :=
         {| place := Sidebar; kind := StHeader; text := "Configuration" |} ::
         (if truthy_opt api_key
          then {| place := Sidebar; kind := StSuccess;
                  text := "API key loaded from secrets!" |}
          else {| place := Sidebar; kind := StError;
                  text := "Missing Google API Key in Streamlit secrets!" |}) ::
         {| place := Sidebar; kind := StHeader; text := "📄 Document Upload" |} ::
         match knowledge_base (session s) with
         | Some _ => [ {| place := Main; kind := StHeader;
                          text := "🔍 Select Analysis Type" |} ]
         | None => []
         end |}.
Proof.
  intros Hsec Hclick Hup. unfold rerun, script, bind.
  rewrite (sidebar_quiet inp (clear_page s) api_key Hsec) by exact Hup.
  rewrite (analysis_panel_idle inp _ Hclick). simpl.
  by destruct (knowledge_base (session s)).
Qed.

(** X11.  A run with nothing to ingest and Analyze not pressed only
    draws: repeating it with the same widget values gives the same state
    and the same page, and calls nothing. *)
Theorem idle_rerun_is_idempotent inp (s : State Svc Vec) :
  analyze_clicked inp = false →
  (∀ f, uploaded_file inp = Some f → file_name f ∈ processed_files (session s)) →
  rerun (rerun s inp) inp = rerun s inp ∧ calls (rerun s inp) = calls s.
Proof.
  intros Hclick Hup. destruct (secret_api_key inp) as [api_key|e] eqn:Hsec.
  - rewrite (idle_rerun inp s api_key Hsec Hclick Hup).
    split; [|done].
    rewrite (idle_rerun inp _ api_key Hsec Hclick) by done. simpl.
    by destruct api_key as [k|]; [destruct (truthy k)|].
  - unfold rerun. rewrite (script_raises inp (clear_page s) e Hsec). simpl.
    split; [|done]. by rewrite (script_raises inp _ e Hsec).
Qed.

(** X12.  Before the session has a knowledge base, a run without an upload
    draws the sidebar and nothing else: the panel and its button are not
    there, so whatever the other widget values are no call is started and
    the session and the store are untouched.  When the secrets lookup
    raises, the run ends with that exception after the first header. *)
Theorem nothing_to_analyze_before_upload inp (s : State Svc Vec) :
  knowledge_base (session s) = None →
  uploaded_file inp = None →
  script inp (clear_page s) =
    match secret_api_key inp with
    | Ok api_key =>
        ({| session := session s;
            environ := match api_key with
                       | Some k => if truthy k then Some k else environ s
                       | None => environ s
                       end;
            chroma := chroma s; svc := svc s; calls := calls s;
            page := [
              {| place := Sidebar; kind := StHeader; text := "Configuration" |};
              (if truthy_opt api_key
               then {| place := Sidebar; kind := StSuccess;
                       text := "API key loaded from secrets!" |}
               else {| place := Sidebar; kind := StError;
                       text := "Missing Google API Key in Streamlit secrets!" |});
              {| place := Sidebar; kind := StHeader;
                 text := "📄 Document Upload" |} ] |},
         Ok tt)
    | Raise e =>
        ({| session := session s; environ := environ s; chroma := chroma s;
            svc := svc s; calls := calls s;
            page := [
              {| place := Sidebar; kind := StHeader; text := "Configuration" |} ] |},
         Raise e)
    end.
Proof.
  intros Hkb Hnone. destruct (secret_api_key inp) as [api_key|e] eqn:Hsec.
  - unfold script, bind.
    rewrite (sidebar_quiet inp (clear_page s) api_key Hsec)
      by (intros f; by rewrite Hnone).
    unfold analysis_panel, bind, get_session. simpl. by rewrite Hkb.
  - by rewrite (script_raises inp (clear_page s) e Hsec).
Qed.

End Properties.

(** ** The claim on the agents' configuration *)

(** C5 (as amended).  The three workers have the same model, the same
    knowledge base with search in it switched on, and the same display
    settings, so each of them may consult the knowledge base; they differ
    in name, description, instructions and tools, and the legal researcher
    is the only one that may search the web. *)
Theorem workers_share_all_but_name_text_and_tools kb :
  Forall (λ a, model a = Gemini "gemini-2.0-flash-exp" ∧
               knowledge a = Some kb ∧
               search_knowledge a = Some true ∧
               show_tool_calls a = true ∧
               markdown a = true ∧
               may_consult_knowledge a ∧
               (may_search_web a ↔ a = legal_researcher kb))
         [legal_researcher kb; contract_analyst kb; legal_strategist kb] ∧
  NoDup (agent_name <$> [legal_researcher kb; contract_analyst kb; legal_strategist kb]).
Proof.
  split.
  - apply Forall_cons_2; [|apply Forall_cons_2; [|apply Forall_cons_2; [|apply Forall_nil_2]]];
      (split_and!; [done..|by split; [eexists|]|]);
      unfold may_search_web; simpl.
    + split; [done|]. intros _. apply list_elem_of_here.
    + split; [by intros ?%elem_of_nil|by intros [=]].
    + split; [by intros ?%elem_of_nil|by intros [=]].
  - apply (bool_decide_unpack _). by vm_compute.
Qed.

(** * The statements on sample runs *)

Module Runs.
Import Sample.

Lemma healthy_agents_respond : @agents_respond nat unit healthy.
Proof. intros a prompt v. by eexists _, _. Defined.

(** The PDF cannot be read: the error is drawn, no file name is recorded,
    and the session holds the knowledge base of the failed upload. *)
Lemma failed_ingestion_is_reported_witness :
  ∃ s', @upload nat unit unreadable (upload_run None) start = (s', Ok tt) ∧
    page s' = [ {| place := Sidebar; kind := StError;
                   text := "Error processing document: EOF marker not found" |} ] ∧
    processed_files (session s') = ∅ ∧
    vector_db (session s') = law_db ∧
    knowledge_base (session s') = Some kb.
Proof.
  destruct (@failed_ingestion_is_reported nat unit unreadable (upload_run None) lease
              start (@ingest nat unit unreadable (upload_run None) lease start).1
              "EOF marker not found")
    as (s' & Hup & Hpage & Hproc & Hdb & Hkb).
  - reflexivity.
  - apply not_elem_of_empty.
  - vm_compute. reflexivity.
  - exists s'. vm_compute in Hkb. by split_and!.
Defined.

(** C1, as the claim has it, fails.  The session starts without a knowledge
    base, on a store that holds a chunk of an earlier document.  The PDF
    reader raises; afterwards the session has a knowledge base and the
    collection is empty. *)
Lemma failed_ingestion_changes_session_and_store :
  let s' := (@upload nat unit unreadable (upload_run None) start).1 in
  (@ingest nat unit unreadable (upload_run None) lease start).2
    = Raise "EOF marker not found" ∧
  knowledge_base (session start) = None ∧
  knowledge_base (session s') = Some kb ∧
  chroma start !! "law" = Some {[ "a1" := ("Clause 1 of an earlier contract", tt) ]} ∧
  chroma s' !! "law" = Some ∅.
Proof. vm_compute. repeat split. Qed.

(** A second upload under a recorded name, with other bytes and other
    chunking parameters, after an Analyze action in between. *)
Lemma processed_file_is_not_reingested_witness :
  let s1 := @reruns nat unit healthy loaded [analyze_run (Some "key") RiskAssessment ""] in
  @upload nat unit healthy reupload_run s1 = (s1, Ok tt) ∧
  chroma (@rerun nat unit healthy s1 reupload_run) = chroma s1 ∧
  session (@rerun nat unit healthy s1 reupload_run) = session s1 ∧
  runs_only s1 (@rerun nat unit healthy s1 reupload_run).
Proof.
  assert (file_name lease_v2 ∈ processed_files (session loaded)) as Hin.
  { change ("lease.pdf" ∈ ({[ "lease.pdf" ]} : gset string)).
    by apply elem_of_singleton_2. }
  exact (@processed_file_is_not_reingested nat unit healthy reupload_run lease_v2 loaded
           [analyze_run (Some "key") RiskAssessment ""] eq_refl Hin).
Defined.

(** The first upload of a session on the store with the earlier document. *)
Lemma ingestion_recreates_collection_witness :
  let s' := (@ingest nat unit healthy (upload_run None) lease start).1 in
  vector_db (session start) = law_db ∧
  ∃ temp_path v1 v2 v3 v4 cs coll,
    @temp_write nat unit healthy (getvalue lease) (svc start) = (v1, Ok temp_path) ∧
    @store_fault nat unit healthy (CallDrop "law") v1 = (v2, Ok tt) ∧
    @store_fault nat unit healthy (CallCreate "law") v2 = (v3, Ok tt) ∧
    @read_pdf nat unit healthy temp_path {| chunk_size := 1000; overlap := 200 |} v3
      = (v4, Ok cs) ∧
    chroma s' !! "law" = Some coll ∧
    (∀ i, is_Some (coll !! i) ↔ i ∈ chunk_id <$> cs) ∧
    (∀ i text vec, coll !! i = Some (text, vec) →
       ∃ c, c ∈ cs ∧ chunk_id c = i ∧ chunk_text c = text) ∧
    (∀ c, c ≠ "law" → chroma s' !! c = chroma start !! c).
Proof.
  assert (@ingest nat unit healthy (upload_run None) lease start =
            ((@ingest nat unit healthy (upload_run None) lease start).1, Ok tt)) as E
    by (vm_compute; reflexivity).
  exact (@ingestion_recreates_collection nat unit healthy None old_store 0%nat []
           (upload_run None) lease _ E).
Defined.

(** C8, as the claim has it, fails.  The collection holds the chunk "a1" of
    an earlier document; a new document is ingested and recorded; the
    collection then holds the new chunk "b1" and "a1" is gone. *)
Lemma ingestion_drops_earlier_chunks :
  let s' := @rerun nat unit healthy start (upload_run (Some "key")) in
  chroma start !! "law" = Some {[ "a1" := ("Clause 1 of an earlier contract", tt) ]} ∧
  processed_files (session s') = {[ "lease.pdf" ]} ∧
  chroma s' !! "law" = Some {[ "b1" := ("This agreement expires in 12 months", tt) ]} ∧
  (chroma s' !! "law") ≫= (.!! "a1") = None.
Proof. vm_compute. repeat split. Qed.

(** The PDF cannot be read: the name is not recorded and the next run
    writes the temporary file again. *)
Lemma filename_recorded_only_after_load_witness :
  let s' := (@upload nat unit unreadable (upload_run None) start).1 in
  (file_name lease ∉ processed_files (session s')) ∧
  (∃ rest, calls (@rerun nat unit unreadable s' reupload_run) =
             calls s' ++ CallTempWrite (getvalue lease_v2) :: rest).
Proof.
  intros s'.
  destruct (@filename_recorded_only_after_load nat unit unreadable (upload_run None)
              lease start) as [_ Hfail].
  - reflexivity.
  - apply not_elem_of_empty.
  - destruct (Hfail "EOF marker not found") as [Hnot Hretry]; [reflexivity|].
    split; [exact Hnot|]. by apply (Hretry reupload_run lease_v2 (Some "key")).
Defined.

(** No key and a failed upload behind: Analyze on a canned query; and a
    run on secrets that cannot be read. *)
Lemma missing_key_blocks_nothing_witness :
  let s := @rerun nat unit keyless start (upload_run None) in
  (∃ query before rest,
     @select_query nat unit (analyze_run None ContractReview "") s = (s, Ok query) ∧
     calls (@rerun nat unit keyless s (analyze_run None ContractReview "")) =
       calls s ++ before ++ CallRun "LegalAdvisor" query :: rest) ∧
  (@script nat unit keyless
     (with_secret (Raise "No secrets found") (analyze_run None ContractReview ""))
     (clear_page s)).2 = Raise "No secrets found".
Proof.
  intros s.
  destruct (@missing_key_blocks_nothing nat unit keyless) as (_ & _ & Hanalyze & Hraise).
  split.
  - assert (knowledge_base (session s) = Some kb) as Hkb by (vm_compute; reflexivity).
    refine (Hanalyze (analyze_run None ContractReview "") kb s None eq_refl Hkb eq_refl _).
    intros [=].
  - by rewrite Hraise.
Defined.

(** C2, as the claim has it, fails.  The secrets are read and hold no key,
    in both runs of the session; the upload fails for want of it; the
    Analyze action of the second run starts the call of the first agent all
    the same. *)
Lemma missing_key_still_calls_agents :
  let inps := [upload_run None; analyze_run None ContractReview ""] in
  let s' := @reruns nat unit keyless start inps in
  Forall (λ inp, secret_api_key inp = Ok None) inps ∧
  page s' !! 1%nat = Some {| place := Sidebar; kind := StError;
                           text := "Missing Google API Key in Streamlit secrets!" |} ∧
  last (calls s') =
    Some (CallRun "LegalAdvisor"
            "Analyze this contract using the knowledge base. Identify key terms, obligations, and risks.").
Proof. split; [by repeat constructor|by vm_compute]. Qed.

(** Analyze on "Risk Assessment" with the knowledge base loaded. *)
Lemma analyze_runs_six_calls_in_sequence_witness :
  let query := "Identify potential legal risks in the document and cite specific sections." in
  ∃ r1 r2 r3 r4 s',
    @analysis_panel nat unit healthy (analyze_run (Some "key") RiskAssessment "") loaded
      = (s', Ok tt) ∧
    calls s' =
      [ CallRun "LegalAdvisor" query;
        CallRun "ContractAnalyst" query;
        CallRun "LegalStrategist" query;
        CallRun "teamlead" (integrate_prompt r1 r2 r3);
        CallRun "teamlead" (key_points_prompt r4);
        CallRun "teamlead" (recommendations_prompt r4) ] ∧
    length (page s') = 7%nat.
Proof.
  intros query.
  destruct (@analyze_runs_six_calls_in_sequence nat unit healthy
              (analyze_run (Some "key") RiskAssessment "") kb query loaded
              eq_refl eq_refl eq_refl eq_refl) as [Hreturns _].
  destruct (Hreturns (answer (legal_researcher kb) "" 0%nat)
                     (answer (contract_analyst kb) "" 0%nat)
                     (answer (legal_strategist kb) "" 0%nat)
                     (answer team_lead "" 0%nat) (answer team_lead "" 0%nat)
                     (answer team_lead "" 0%nat) 6%nat)
    as (t1 & t2 & t3 & Heq & _).
  { exists 1%nat, 2%nat, 3%nat, 4%nat, 5%nat. by split_and!. }
  eexists _, _, _, _, _. split; [exact Heq|]. by split.
Defined.

(** C3, as the claim has it, fails.  The query is not empty and the model
    refuses the first call: one call is started, not six, and no tab is
    drawn. *)
Lemma analyze_stops_when_an_agent_raises :
  let inp := analyze_run None RiskAssessment "" in
  let query := "Identify potential legal risks in the document and cite specific sections." in
  let r := @analysis_panel nat unit keyless inp loaded in
  @select_query nat unit inp loaded = (loaded, Ok query) ∧
  truthy query = true ∧
  r.2 = Raise "GOOGLE_API_KEY not set" ∧
  calls r.1 = [CallRun "LegalAdvisor" query] ∧
  page r.1 = [ {| place := Main; kind := StHeader; text := "🔍 Select Analysis Type" |} ].
Proof. vm_compute. repeat split. Qed.

(** The team lead's second and third call on the sample report. *)
Lemma team_lead_rereads_its_report_witness :
  let query := "Find relevant legal cases and precedents using the knowledge base." in
  let s1 := (@get_team_response nat unit healthy kb query loaded).1 in
  calls (@analyze nat unit healthy kb query loaded).1 =
    calls s1 ++ [
      CallRun "teamlead"
        ("Summarize the key legal points from this analysis:" +:+ nl +:+ "Report of teamlead");
      CallRun "teamlead"
        ("Provide legal recommendations based on this analysis:" +:+ nl +:+
         "Report of teamlead") ].
Proof.
  intros query s1.
  assert (@get_team_response nat unit healthy kb query loaded =
            (s1, Ok (answer team_lead "" 3%nat))) as E
    by (vm_compute; reflexivity).
  destruct (@team_lead_rereads_its_report nat unit healthy kb query loaded s1
              (answer team_lead "" 3%nat) E) as [_ Hcalls].
  exact Hcalls.
Defined.

(** C4, as the claim has it, fails.  The integrated report is produced; the
    model refuses the second call of the team lead; there is no third
    call. *)
Lemma third_call_is_skipped_when_second_raises :
  let query := "Find relevant legal cases and precedents using the knowledge base." in
  let report := @get_team_response nat unit out_of_quota kb query loaded in
  let done := @analyze nat unit out_of_quota kb query loaded in
  report.2 = Ok (answer team_lead "" 3%nat) ∧
  length (calls report.1) = 4%nat ∧
  done.2 = Raise "429 quota exceeded" ∧
  calls done.1 =
    calls report.1 ++ [
      CallRun "teamlead"
        ("Summarize the key legal points from this analysis:" +:+ nl +:+
         "Report of teamlead") ].
Proof. vm_compute. repeat split. Qed.

(** "Risk Assessment" has its canned query, and an empty custom query draws
    the warning. *)
Lemma canned_queries_and_empty_query_guard_witness :
  (∃ query, dict_get predefined_queries (label RiskAssessment) = Some query ∧ query ≠ "") ∧
  ∃ s', @analysis_panel nat unit healthy (analyze_run (Some "key") CustomQuery "") loaded
          = (s', Ok tt) ∧
        calls s' = calls loaded ∧
        last (page s') = Some {| place := Main; kind := StWarning;
                                 text := "Please enter a query." |}.
Proof.
  destruct (@canned_queries_and_empty_query_guard nat unit healthy) as [Hcanned Hguard].
  split.
  - destruct (Hcanned RiskAssessment) as (query & Hq & Hne & _); [done|].
    by exists query.
  - eexists. split; [by apply (Hguard _ kb)|]. done.
Defined.

(** The custom query of white space, with agents that answer. *)
Lemma whitespace_query_passes_the_guard_witness :
  ∃ query, query ≠ "" ∧ whitespace_only query = true ∧
    ∃ r1 r2 r3 r4,
      calls (@analysis_panel nat unit healthy
               (analyze_run (Some "key") CustomQuery query) loaded).1 =
        [ CallRun "LegalAdvisor" query;
          CallRun "ContractAnalyst" query;
          CallRun "LegalStrategist" query;
          CallRun "teamlead" (integrate_prompt r1 r2 r3);
          CallRun "teamlead" (key_points_prompt r4);
          CallRun "teamlead" (recommendations_prompt r4) ].
Proof.
  destruct (@whitespace_query_passes_the_guard nat unit healthy)
    as (query & Hne & Hws & Hpass).
  exists query. split_and!; [done..|].
  destruct (Hpass (analyze_run (Some "key") CustomQuery query) kb loaded)
    as (_ & _ & Hall); [reflexivity..|].
  exact (Hall healthy_agents_respond).
Defined.

(** C5, as the claim has it, fails: the contract analyst has no tools, so
    it cannot search the web, and it differs from the legal researcher in
    more than instructions and description. *)
Lemma analysts_cannot_search_web :
  tools (contract_analyst kb) = None ∧
  ¬ may_search_web (contract_analyst kb) ∧
  ¬ same_but_instructions_description (legal_researcher kb) (contract_analyst kb).
Proof.
  split_and!.
  - reflexivity.
  - unfold may_search_web. simpl. by intros ?%elem_of_nil.
  - by intros (_ & _ & _ & _ & [=] & _).
Qed.

End Runs.

(** * More sample runs *)

Module MoreRuns.
Import Sample.

(** An upload that fails, Analyze not pressed. *)
Lemma run_without_analyze_is_safe_witness :
  (@script nat unit unreadable (upload_run None) start).2 = Ok tt ∧
  ingestion_only start (@script nat unit unreadable (upload_run None) start).1.
Proof.
  exact (@run_without_analyze_is_safe nat unit unreadable (upload_run None) start eq_refl).
Defined.

(** Analyze without a key: the model refuses the first call. *)
Lemma only_agent_exceptions_escape_witness :
  ∃ a prompt v v',
    @agent_run nat unit keyless a prompt v = (v', Raise "GOOGLE_API_KEY not set").
Proof.
  assert (@script nat unit keyless (analyze_run None ContractReview "") loaded =
            ((@script nat unit keyless (analyze_run None ContractReview "") loaded).1,
             Raise "GOOGLE_API_KEY not set")) as E
    by (vm_compute; reflexivity).
  destruct (@only_agent_exceptions_escape nat unit keyless _ _ _ _ E) as [Hsec|Hagent].
  - discriminate Hsec.
  - exact Hagent.
Defined.

Lemma researcher_failure_ends_the_run_witness :
  let query := "Identify potential legal risks in the document and cite specific sections." in
  @analysis_panel nat unit keyless (analyze_run None RiskAssessment "") loaded =
    ({| session := session loaded; environ := environ loaded; chroma := chroma loaded;
        svc := 1%nat;
        calls := calls loaded ++ [CallRun "LegalAdvisor" query];
        page := page loaded ++ [
          {| place := Main; kind := StHeader; text := "🔍 Select Analysis Type" |} ] |},
     Raise "GOOGLE_API_KEY not set").
Proof.
  exact (@researcher_failure_ends_the_run nat unit keyless
           (analyze_run None RiskAssessment "") kb _ loaded 1%nat _
           eq_refl eq_refl eq_refl eq_refl eq_refl).
Defined.

(** The quota ends after the integrated report. *)
Lemma key_points_failure_leaves_partial_page_witness :
  let query := "Find relevant legal cases and precedents using the knowledge base." in
  (@analyze nat unit out_of_quota kb query loaded).2 = Raise "429 quota exceeded" ∧
  length (page (@analyze nat unit out_of_quota kb query loaded).1) = 3%nat.
Proof.
  intros query.
  assert (@get_team_response nat unit out_of_quota kb query loaded =
            ((@get_team_response nat unit out_of_quota kb query loaded).1,
             Ok (answer team_lead "" 3%nat))) as E1
    by (vm_compute; reflexivity).
  assert (@agent_run nat unit out_of_quota team_lead
            (key_points_prompt (answer team_lead "" 3%nat))
            (svc (@get_team_response nat unit out_of_quota kb query loaded).1) =
            (5%nat, Raise "429 quota exceeded")) as E2
    by (vm_compute; reflexivity).
  destruct (@key_points_failure_leaves_partial_page nat unit out_of_quota kb query
              loaded _ _ _ _ E1 E2) as [Hpage Heq].
  rewrite Heq. split; [reflexivity|]. cbn [page fst]. rewrite Hpage. reflexivity.
Defined.

Lemma knowledge_base_stays_loaded_witness :
  is_Some (knowledge_base (session
    (@reruns nat unit unreadable loaded
       [reupload_run; analyze_run None ContractReview ""]))).
Proof.
  exact (@knowledge_base_stays_loaded nat unit unreadable loaded
           [reupload_run; analyze_run None ContractReview ""]
           (ex_intro _ kb eq_refl)).
Defined.

Lemma knowledge_base_is_on_the_law_collection_witness :
  kb_vector_db kb = law_db ∧
  vector_db (session (@reruns nat unit healthy start [upload_run (Some "key")])) = law_db.
Proof.
  assert (knowledge_base (session
            (@reruns nat unit healthy (session_start None old_store 0%nat)
               [upload_run (Some "key")])) = Some kb) as E
    by (vm_compute; reflexivity).
  exact (@knowledge_base_is_on_the_law_collection nat unit healthy None old_store 0%nat
           [upload_run (Some "key")] kb E).
Defined.

Lemma processed_file_implies_knowledge_base_witness :
  is_Some (knowledge_base (session
    (@reruns nat unit healthy start [upload_run (Some "key")]))).
Proof.
  assert (processed_files (session
            (@reruns nat unit healthy (session_start None old_store 0%nat)
               [upload_run (Some "key")])) = {[ "lease.pdf" ]}) as E
    by (vm_compute; reflexivity).
  apply (@processed_file_implies_knowledge_base nat unit healthy None old_store 0%nat
           [upload_run (Some "key")] "lease.pdf").
  rewrite E. by apply elem_of_singleton_2.
Defined.

Lemma successful_ingestion_calls_witness :
  ∃ temp_path v1 v2 v3 v4 cs rest,
    @temp_write nat unit healthy (getvalue lease) (svc start) = (v1, Ok temp_path) ∧
    @store_fault nat unit healthy (CallDrop "law") v1 = (v2, Ok tt) ∧
    @store_fault nat unit healthy (CallCreate "law") v2 = (v3, Ok tt) ∧
    @read_pdf nat unit healthy temp_path {| chunk_size := 1000; overlap := 200 |} v3
      = (v4, Ok cs) ∧
    calls (@ingest nat unit healthy (upload_run None) lease start).1 =
      calls start ++
      [ CallTempWrite (getvalue lease);
        CallDrop "law";
        CallCreate "law";
        CallReadPdf temp_path {| chunk_size := 1000; overlap := 200 |} ] ++ rest ∧
    Forall (λ c, is_embed_or_upsert c = true) rest ∧
    knowledge_base (session (@ingest nat unit healthy (upload_run None) lease start).1) =
      Some (new_knowledge_base (upload_run None) (vector_db (session start)) temp_path) ∧
    file_name lease ∈
      processed_files (session (@ingest nat unit healthy (upload_run None) lease start).1).
Proof.
  assert (@ingest nat unit healthy (upload_run None) lease start =
            ((@ingest nat unit healthy (upload_run None) lease start).1, Ok tt)) as E
    by (vm_compute; reflexivity).
  exact (@successful_ingestion_calls nat unit healthy (upload_run None) lease start _ E).
Defined.

Lemma failed_read_empties_collection_witness :
  ∃ s', @upload nat unit unreadable (upload_run None) start = (s', Ok tt) ∧
        chroma s' = <["law" := ∅]> old_store.
Proof.
  eexists. split.
  - exact (@failed_read_empties_collection nat unit unreadable (upload_run None) lease
             start "/tmp/tmpa1b2c3.pdf" 1%nat 2%nat 3%nat 4%nat "EOF marker not found"
             eq_refl (not_elem_of_empty _) eq_refl eq_refl eq_refl eq_refl).
  - reflexivity.
Defined.

(** The file is recorded; the page is drawn again and again. *)
Lemma idle_rerun_is_idempotent_witness :
  @rerun nat unit healthy (@rerun nat unit healthy loaded reupload_run) reupload_run
    = @rerun nat unit healthy loaded reupload_run ∧
  calls (@rerun nat unit healthy loaded reupload_run) = calls loaded.
Proof.
  apply (@idle_rerun_is_idempotent nat unit healthy reupload_run loaded eq_refl).
  intros f [= <-]. change ("lease.pdf" ∈ ({[ "lease.pdf" ]} : gset string)).
  by apply elem_of_singleton_2.
Defined.

(** The first visit of the page: no panel, whatever the widget values. *)
Lemma nothing_to_analyze_before_upload_witness :
  (@script nat unit healthy first_visit (clear_page start)).2 = Ok tt ∧
  calls (@script nat unit healthy first_visit (clear_page start)).1 = [] ∧
  length (page (@script nat unit healthy first_visit (clear_page start)).1) = 3%nat.
Proof.
  rewrite (@nothing_to_analyze_before_upload nat unit healthy first_visit start
             eq_refl eq_refl).
  by split_and!.
Defined.

End MoreRuns.
